(** * First-fit bin packing (bin-packing.c): model and verified properties

    The program packs unsigned 16-bit numbers into bins of a fixed size with
    the first-fit strategy.  This file embeds the C functions of
    [src/bin-packing.c] as Rocq functions and proves properties of them.

    Conventions of the embedding:
    - [unsigned short int] is a [Z] in [0, 65535]; every store into such a
      variable is written with the conversion [ushort] (reduction modulo
      2^16), every read is a plain [Z];
    - a heap block is the list of its cells; [malloc_cell], [realloc] and
      [store] are the block operations the code performs; a cell that the C
      code has not written yet holds an indeterminate value, for which the
      model uses a fixed filler;
    - a C function that updates a structure through a pointer and returns an
      [int] becomes a function to a pair (returned code, updated structure);
    - the globals [NUMBERS_QUANTITY] and [BIN_SIZE] are section variables. *)

From Stdlib Require Import ZArith Lia Sorted.
From stdpp Require Import base list.

Open Scope Z_scope.

(** ** Machine integers *)

(** Conversion to [unsigned short int] (16 bits). *)
Definition ushort (x : Z) : Z := x mod 65536.

(** The values an [unsigned short int] can hold. *)
Definition is_ushort (x : Z) : Prop := 0 <= x <= 65535.

(** ** Heap blocks *)

(** [malloc] of a block for one element; its content is indeterminate. *)
Definition malloc_cell {A} (filler : A) : list A := [filler].

(** [realloc(p, n * sizeof elem)]: the first cells are kept, new cells are
    indeterminate. *)
Definition realloc {A} (filler : A) (p : list A) (n : Z) : list A :=
  resize (Z.to_nat n) filler p.

(** [p[i] = x]. *)
Definition store {A} (p : list A) (i : Z) (x : A) : list A :=
  <[Z.to_nat i := x]> p.

(** ** Data structures *)

(** [struct bin]: the items, the space left, the number of items. *)
Record bin := Bin {
  b_itens : list Z;
  b_left : Z;
  b_count : Z
}.

(** [struct bin_list]: the bins and their number. *)
Record bin_list := BinList {
  l_itens : list bin;
  l_count : Z
}.

(** Sum of the numbers of a block. *)
Definition sum (l : list Z) : Z := foldr Z.add 0 l.

(** Filler for a bin cell that has not been written. *)
Definition no_bin : bin := Bin [] 0 0.

Section Packing.

(** The globals of the program. *)
Variable NUMBERS_QUANTITY : Z.
Variable BIN_SIZE : Z.

(** [create_empty_bin]: the item pointer is left unset, which the model
    renders as the empty block. *)
Definition create_empty_bin : bin :=
  {| b_itens := []; b_left := BIN_SIZE; b_count := 0 |}.

(** [create_empty_bin_list] (allocation succeeding). *)
Definition create_empty_bin_list : bin_list :=
  {| l_itens := []; l_count := 0 |}.

(** [insert_number_bin]: returns 0 when [num] was inserted, 1 otherwise. *)
Definition insert_number_bin (b : bin) (num : Z) : Z * bin :=
  if num <=? b_left b then
    let itens :=
      if b_count b =? 0 then malloc_cell 0
      else realloc 0 (b_itens b) (b_count b + 1) in
    (0, {| b_itens := store itens (b_count b) num;
           b_left := ushort (b_left b - num);
           b_count := ushort (b_count b + 1) |})
  else (1, b).

(** [insert_bin_list]: returns 1 when the list already holds more than
    [NUMBERS_QUANTITY] bins, otherwise stores [b] after the last bin and
    returns 0. *)
Definition insert_bin_list (list : bin_list) (b : bin) : Z * bin_list :=
  if l_count list >? NUMBERS_QUANTITY then (1, list)
  else
    let itens :=
      if l_count list =? 0 then malloc_cell no_bin
      else realloc no_bin (l_itens list) (l_count list + 1) in
    (0, {| l_itens := store itens (l_count list) b;
           l_count := ushort (l_count list + 1) |}).

(** The inner loop of [fill_bins]:
    [for (j = ...; j < bins->count; j++) { hasInserted =
    insert_number_bin(bins->itens + j, num); if (hasInserted == 0) break; }].
    [fuel] bounds the number of iterations; the loop is entered with
    [fuel = bins->count] and [j = 0], which is the exact number of
    iterations of a run without [break].  A read outside the block (not a
    defined C behaviour) ends the loop. *)
Fixpoint scan_bins (fuel : nat) (j : Z) (bins : bin_list) (num : Z)
    (hasInserted : Z) : Z * bin_list :=
  match fuel with
  | O => (hasInserted, bins)
  | S fuel' =>
    if j <? l_count bins then
      match l_itens bins !! Z.to_nat j with
      | None => (hasInserted, bins)
      | Some aux =>
        let '(r, aux') := insert_number_bin aux num in
        let bins' := {| l_itens := store (l_itens bins) j aux';
                        l_count := l_count bins |} in
        if r =? 0 then (r, bins')
        else scan_bins fuel' (ushort (j + 1)) bins' num r
      end
    else (hasInserted, bins)
  end.

(** The body of the outer loop of [fill_bins] for the number [num]; the
    state is the flag [hasInserted] and the list of bins. *)
Definition fill_bins_body (st : Z * bin_list) (num : Z) : Z * bin_list :=
  let '(hasInserted, bins) := st in
  let '(hasInserted, bins) :=
    scan_bins (Z.to_nat (l_count bins)) 0 bins num hasInserted in
  if hasInserted =? 1 then
    let b := create_empty_bin in
    let '(_, b) := insert_number_bin b num in
    insert_bin_list bins b
  else (hasInserted, bins).

(** The state of [fill_bins] after the first [k] iterations of its outer
    loop, started on the list [bins]: iteration [i] reads [values[i]].
    A read outside [values] (not a defined C behaviour) is skipped. *)
Fixpoint fill_bins_iter (k : nat) (values : list Z) (bins : bin_list)
    : Z * bin_list :=
  match k with
  | O => (1, bins)
  | S k' =>
    let st := fill_bins_iter k' values bins in
    match values !! k' with
    | Some num => fill_bins_body st num
    | None => st
    end
  end.

(** [fill_bins]: the outer loop runs for [i = 0 .. NUMBERS_QUANTITY - 1];
    the result is the returned flag and the final list. *)
Definition fill_bins (values : list Z) (bins : bin_list) : Z * bin_list :=
  fill_bins_iter (Z.to_nat NUMBERS_QUANTITY) values bins.

End Packing.

(** ** Sorting the numbers *)

(** [sort_numbers_array] hands the block of [unsigned short] numbers to
    [qsort] with the element size [sizeof(int)], and [comparison_numbers]
    reads its arguments through [int*].  The model therefore needs the
    memory view of the block; it takes the usual data model of the program's
    targets: 16-bit [unsigned short], 32-bit two's complement [int],
    little-endian byte order.  One [int] element covers two consecutive
    cells of the block. *)

(** Conversion to [int]. *)
Definition int32 (x : Z) : Z := (x + 2147483648) mod 4294967296 - 2147483648.

(** The [int] read at two consecutive [unsigned short] cells. *)
Definition int_of_cells (lo hi : Z) : Z := int32 (lo + 65536 * hi).

(** The two [unsigned short] cells covered by an [int]. *)
Definition cells_of_int (x : Z) : list Z :=
  [x mod 65536; (x / 65536) mod 65536].

(** A block of cells read as a block of [int]. *)
Fixpoint ints_of_block (cells : list Z) : list Z :=
  match cells with
  | lo :: hi :: rest => int_of_cells lo hi :: ints_of_block rest
  | _ => []
  end.

(** A block of [int] read as a block of cells. *)
Definition block_of_ints (ints : list Z) : list Z :=
  concat (map cells_of_int ints).

(** [comparison_numbers]: the difference [*(int* )b - *(int* )a], in [int]
    arithmetic; where the subtraction overflows, which C leaves undefined,
    the model wraps around. *)
Definition comparison_numbers (a b : Z) : Z := int32 (b - a).

(** [qsort] of the C library, as the GNU C library implements it for a
    block of this kind: a merge sort ([msort_with_tmp]).  A block of more
    than one element is cut after its first [n / 2] elements, both parts
    are sorted, and the parts are merged: as long as both have elements,
    the head of the first part is taken when [compar] of the two heads is
    at most 0, the head of the second part otherwise.  Where the
    comparison is not consistent (an overflow in [comparison_numbers]) the
    C standard sets no order; the model gives the one of this
    implementation. *)
Fixpoint msort_merge (compar : Z → Z → Z) (b1 : list Z) : list Z → list Z :=
  fix merge_b2 (b2 : list Z) : list Z :=
    match b1, b2 with
    | [], _ => b2
    | _, [] => b1
    | x1 :: b1', x2 :: b2' =>
      if compar x1 x2 <=? 0 then x1 :: msort_merge compar b1' b2
      else x2 :: merge_b2 b2'
    end.

(** [depth] bounds the depth of the recursion; [qsort] enters with the
    length of the block, which the halving does not use up (lemma
    [msort_with_tmp_depth]). *)
Fixpoint msort_with_tmp (depth : nat) (compar : Z → Z → Z) (b : list Z)
    : list Z :=
  match depth with
  | O => b
  | S depth' =>
    if (length b <=? 1)%nat then b
    else
      let n1 := (length b / 2)%nat in
      msort_merge compar
        (msort_with_tmp depth' compar (take n1 b))
        (msort_with_tmp depth' compar (drop n1 b))
  end.

Definition qsort (compar : Z → Z → Z) (base : list Z) : list Z :=
  msort_with_tmp (length base) compar base.

(** [sort_numbers_array]:
    [qsort(values, NUMBERS_QUANTITY, sizeof(int), comparison_numbers)] on the
    block [values] of [unsigned short] cells: the first
    [2 * NUMBERS_QUANTITY] cells are sorted as [NUMBERS_QUANTITY] elements
    of type [int]. *)
Definition sort_numbers_array (NUMBERS_QUANTITY : Z) (values : list Z)
    : list Z :=
  let n := (2 * Z.to_nat NUMBERS_QUANTITY)%nat in
  block_of_ints (qsort comparison_numbers (ints_of_block (take n values)))
  ++ drop n values.

(** The numbers the program goes on to use: the first [NUMBERS_QUANTITY]
    cells of the block. *)
Definition numbers (NUMBERS_QUANTITY : Z) (values : list Z) : list Z :=
  take (Z.to_nat NUMBERS_QUANTITY) values.

(** The other version of the program in the repository keeps every number
    in an [int]; its [sort_numbers_array] is the same call of [qsort], on a
    block whose elements do have the size [sizeof(int)]. *)
Module IntVariant.

Definition sort_numbers_array (NUMBERS_QUANTITY : Z) (values : list Z)
    : list Z :=
  let n := Z.to_nat NUMBERS_QUANTITY in
  qsort comparison_numbers (take n values) ++ drop n values.

End IntVariant.

(** The numbers whose differences [comparison_numbers] computes without
    overflow. *)
Definition small (x : Z) : Prop := 0 <= x <= 2147483647.

(** Descending order: no element is smaller than the one that follows. *)
Definition descending (l : list Z) : Prop :=
  ∀ i a b, l !! i = Some a → l !! S i = Some b → b <= a.

(** ** Reporting *)

(** Integer division of C: not defined for a zero divisor. *)
Definition c_div (a b : Z) : option Z :=
  if b =? 0 then None else Some (Z.quot a b).

(** [print_numbers]: the printed numbers, the printed total (the loop
    counter) and the printed average; [None] when the computation of the
    average has no defined behaviour. *)
Definition print_numbers (NUMBERS_QUANTITY : Z) (values : list Z)
    : option (list Z * Z * Z) :=
  let shown := numbers NUMBERS_QUANTITY values in
  let total := foldl (λ total v, ushort (total + v)) 0 shown in
  match c_div total NUMBERS_QUANTITY with
  | None => None
  | Some average => Some (shown, NUMBERS_QUANTITY, average)
  end.

(** ** The process *)

(** How a run ends: [main] returns with a status and the bins it printed,
    [exit] is called with a status, or an operation without defined
    behaviour is reached (division by zero, access through [NULL], [free]
    of a pointer that was never set).  For the last case C fixes no
    outcome: a real run may be stopped there or may go on, and [Undefined]
    says nothing about which. *)
Inductive outcome :=
  | Returned (status : Z) (bins : bin_list)
  | Exited (status : Z)
  | Undefined.

(** [create_empty_bin_list] with the result of its [malloc]: the status
    passed to [exit] when it is [NULL], the empty list otherwise. *)
Definition create_empty_bin_list_alloc (allocated : bool) : Z + bin_list :=
  if allocated then inr create_empty_bin_list else inl 0.

(** [free_bins] frees the block of items of every bin, then the block of
    bins.  A bin that never received a number still has the unset pointer
    [create_empty_bin] left, and so has a list that never received a bin;
    freeing such a pointer has no defined behaviour ([None]). *)
Definition free_bins (bins : bin_list) : option Z :=
  if forallb (λ b, negb (b_count b =? 0))
       (take (Z.to_nat (l_count bins)) (l_itens bins))
     && negb (l_count bins =? 0)
  then Some 0 else None.

(** [main].  [argc] is the argument count and [argv] holds the integers
    [atoi] yields for [argv[1]], [argv[2]], ...  The environment of the run
    is: [generated], the numbers [generate_random_number] returns;
    [values_block], the result of the [malloc] for the numbers ([None] for
    [NULL], otherwise the indeterminate cells of the fresh block, which has
    room for [sizeof(int)] bytes, that is two cells, per number);
    [list_allocated], whether the [malloc] of the list succeeds.  The
    allocations made while the bins are filled are taken to succeed.

    The model is of runs with at most 65535 numbers on the command line
    ([argc <= 65540]).  The loop that copies them counts in an
    [unsigned short]; with more numbers its counter wraps before it
    reaches [argc - 5] and the loop does not end, which the model, written
    as if each number were copied once, does not render. *)
Definition main (argc : Z) (argv : list Z) (generated : list Z)
    (values_block : option (list Z)) (list_allocated : bool) : outcome :=
  if argc <? 5 then Exited 1
  else
    let BIN_SIZE := ushort (argv !!! 1%nat) in
    let '(NUMBERS_QUANTITY, written) :=
      if argc >? 5 then (ushort (argc - 5), ushort <$> drop 4 argv)
      else
        let quantity := ushort (argv !!! 0%nat) in
        (quantity, ushort <$> take (Z.to_nat quantity) generated) in
    match values_block with
    | None =>
      match written with
      | [] => Exited 1
      | _ :: _ => Undefined
      end
    | Some cells =>
      let values := written ++ drop (length written) cells in
      match create_empty_bin_list_alloc list_allocated with
      | inl status => Exited status
      | inr bins =>
        let values := sort_numbers_array NUMBERS_QUANTITY values in
        match print_numbers NUMBERS_QUANTITY values with
        | None => Undefined
        | Some _ =>
          let '(_, bins) :=
            fill_bins NUMBERS_QUANTITY BIN_SIZE values bins in
          match free_bins bins with
          | None => Undefined
          | Some _ => Returned 0 bins
          end
        end
      end
    end.

(** ** Well-formed structures *)

(** The bin a successful insertion of [num] into [b] leaves. *)
Definition bin_add (b : bin) (num : Z) : bin :=
  {| b_itens := b_itens b ++ [num];
     b_left := b_left b - num;
     b_count := b_count b + 1 |}.

(** A bin as the program builds it for the size [BIN_SIZE]: [count] is the
    length of the block of items, the items are [unsigned short] numbers
    and [left] is what they leave of the size. *)
Record bin_ok (BIN_SIZE : Z) (b : bin) : Prop := {
  bin_ok_count : b_count b = Z.of_nat (length (b_itens b));
  bin_ok_itens : Forall is_ushort (b_itens b);
  bin_ok_left : b_left b = BIN_SIZE - sum (b_itens b);
  bin_ok_nonneg : 0 <= b_left b
}.

(** A list of bins as the program builds it. *)
Record list_ok (BIN_SIZE : Z) (bins : bin_list) : Prop := {
  list_ok_count : l_count bins = Z.of_nat (length (l_itens bins));
  list_ok_bins : Forall (bin_ok BIN_SIZE) (l_itens bins)
}.

(** All the numbers stored in the bins of a list, bin after bin. *)
Definition stored (bins : bin_list) : list Z :=
  concat (b_itens <$> l_itens bins).

(** The admission test of [insert_number_bin], as a predicate on bins. *)
Definition fits (num : Z) (b : bin) : Prop := num <= b_left b.

#[global] Instance fits_dec num b : Decision (fits num b).
Proof. unfold fits. apply _. Defined.

(** What [insert_number_bin] needs of a bin to store one more number: a
    count that is the length of the block and can still grow, and a space
    left that is an [unsigned short]. *)
Definition has_room (b : bin) : Prop :=
  b_count b = Z.of_nat (length (b_itens b)) ∧ b_count b < 65535 ∧
  b_left b <= 65535.

(** ** First fit, as a specification *)

(** The bin that [fill_bins] appends for [num]: a fresh bin after the
    attempt to insert [num] into it. *)
Definition new_bin (BIN_SIZE : Z) (num : Z) : bin :=
  (insert_number_bin (create_empty_bin BIN_SIZE) num).2.

(** First fit: [num] goes into the first bin, in the order of the list,
    whose space left is at least [num]; when there is none, a new bin is
    appended at the end of the list. *)
Definition first_fit (BIN_SIZE : Z) (bins : bin_list) (num : Z) : bin_list :=
  match list_find (fits num) (l_itens bins) with
  | Some (j, b) =>
    {| l_itens := <[j := bin_add b num]> (l_itens bins);
       l_count := l_count bins |}
  | None =>
    {| l_itens := l_itens bins ++ [new_bin BIN_SIZE num];
       l_count := l_count bins + 1 |}
  end.

(** ** The invariant of the outer loop *)

(** What holds of the state of [fill_bins] after [k] iterations on
    [values], started on the empty list: the list is well formed, it has at
    most [k] bins of at most [k] items each, the flag is 1 before the first
    number and 0 after each number, and the bins store exactly the numbers
    read so far that are at most [BIN_SIZE]. *)
Record run_inv (BIN_SIZE : Z) (values : list Z) (k : nat)
    (st : Z * bin_list) : Prop := {
  run_list_ok : list_ok BIN_SIZE st.2;
  run_bins_le : (length (l_itens st.2) ≤ k)%nat;
  run_items_le : Forall (λ b, (length (b_itens b) ≤ k)%nat) (l_itens st.2);
  run_flag_start : k = 0%nat → st.1 = 1;
  run_flag_next : k ≠ 0%nat → st.1 = 0 ∧ l_itens st.2 ≠ [];
  run_stored : stored st.2 ≡ₚ filter (λ v, v <= BIN_SIZE) (take k values)
}.

(** ** Generating the numbers *)

(** [RAND_MAX] of the C library; the value of the GNU library, for which
    [(double) RAND_MAX + 1] is the power of two 2^31. *)
Definition RAND_MAX : Z := 2147483647.

(** [generate_random_number] for the value [r] that [rand()] returns.
    With [RAND_MAX + 1 = 2^31], the quotient [d = r / 2^31] and the product
    [d * (max - min + 1)] (an integer below 2^31 times one of at most 17
    bits, scaled by a power of two) are exact in [double], so the value
    converted into [k] is the rational [r * (max - min + 1) / 2^31] cut
    toward zero.  The conversion to [unsigned short] is defined only when
    that value is in range ([None] otherwise). *)
Definition generate_random_number (r min max : Z) : option Z :=
  let k := Z.quot (r * (max - min + 1)) (RAND_MAX + 1) in
  if (0 <=? k) && (k <=? 65535) then Some (min + k) else None.

(** [create_numbers_array]: cell [i] of [values] receives the result of the
    [i]-th call of [generate_random_number], converted to [unsigned short];
    [rands] lists the values the successive calls of [rand()] return. *)
Definition create_numbers_array (NUMBERS_QUANTITY NUMBERS_MINIMUM
    NUMBERS_MAXIMUM : Z) (rands : list Z) (values : list Z)
    : option (list Z) :=
  written ←
    mapM (λ r, ushort <$>
                 generate_random_number r NUMBERS_MINIMUM NUMBERS_MAXIMUM)
         (take (Z.to_nat NUMBERS_QUANTITY) rands);
  Some (written ++ drop (length written) values).

(** ** First fit leaves no two bins that one bin could hold *)

(** Every bin placed after another one that is not empty started with a
    number that the earlier bin has no room for. *)
Definition opened_by_need (bins : list bin) : Prop :=
  ∀ i j bi bj x, (i < j)%nat →
    bins !! i = Some bi → bins !! j = Some bj →
    head (b_itens bj) = Some x → b_left bi < x.

(** * Properties *)

Lemma ushort_id x : is_ushort x → ushort x = x.
Proof. unfold is_ushort, ushort. intros H. apply Z.mod_small. lia. Qed.

Lemma realloc_store_app {A} (d : A) (p : list A) (n : Z) (x : A) :
  n = Z.of_nat (length p) →
  store (realloc d p (n + 1)) n x = p ++ [x].
Proof.
  intros ->. unfold store, realloc.
  replace (Z.to_nat (Z.of_nat (length p) + 1)) with (length p + 1)%nat by lia.
  rewrite Nat2Z.id, resize_add_eq by done. simpl.
  replace (length p) with (length p + 0)%nat at 1 by lia.
  by rewrite insert_app_r.
Qed.

Lemma malloc_store_app {A} (d : A) (p : list A) (n : Z) (x : A) :
  n = Z.of_nat (length p) → n = 0 →
  store (malloc_cell d) n x = p ++ [x].
Proof.
  intros Hn ->. destruct p; [done | simpl in Hn; lia].
Qed.

(** ** [insert_number_bin] *)

Lemma insert_number_bin_full b v :
  ¬ v <= b_left b → insert_number_bin b v = (1, b).
Proof.
  intros H. unfold insert_number_bin.
  destruct (Z.leb_spec v (b_left b)); [lia | done].
Qed.

Lemma insert_number_bin_fits b v :
  b_count b = Z.of_nat (length (b_itens b)) → b_count b < 65535 →
  b_left b <= 65535 → 0 <= v → v <= b_left b →
  insert_number_bin b v = (0, bin_add b v).
Proof.
  intros Hc Hmax Hl Hv Hfit. unfold insert_number_bin, bin_add.
  destruct (Z.leb_spec v (b_left b)); [| lia].
  rewrite !ushort_id by (unfold is_ushort; lia).
  do 2 f_equal.
  destruct (Z.eqb_spec (b_count b) 0) as [H0 | H0].
  - by apply malloc_store_app.
  - by apply realloc_store_app.
Qed.

(** C3.  For every bin [b] of the program (its count is the number of its
    items and is below the largest [unsigned short], its space left is an
    [unsigned short]) and every number [v], [insert_number_bin] returns 0
    (inserted) exactly when [v <= b.left]; then [v] is appended to the items,
    [left] decreases by exactly [v] and [count] grows by one; otherwise it
    returns 1 (did not fit) and the bin is unchanged. *)
Theorem insert_number_bin_spec (b : bin) (v : Z) :
  b_count b = Z.of_nat (length (b_itens b)) → b_count b < 65535 →
  is_ushort (b_left b) → is_ushort v →
  ((insert_number_bin b v).1 = 0 ↔ v <= b_left b) ∧
  (v <= b_left b →
     insert_number_bin b v =
       (0, {| b_itens := b_itens b ++ [v];
              b_left := b_left b - v;
              b_count := b_count b + 1 |})) ∧
  (¬ v <= b_left b → insert_number_bin b v = (1, b)).
Proof.
  intros Hc Hmax [_ Hl] [Hv _].
  assert (Hfit : v <= b_left b → insert_number_bin b v = (0, bin_add b v))
    by (by apply insert_number_bin_fits).
  split; [| split]; [| done | apply insert_number_bin_full].
  destruct (decide (v <= b_left b)) as [H | H].
  - by rewrite Hfit.
  - rewrite insert_number_bin_full by done. simpl. split; [done | lia].
Qed.

(** ** The inner loop: a search for the first bin that fits *)

Lemma bin_list_eta bins :
  {| l_itens := l_itens bins; l_count := l_count bins |} = bins.
Proof. by destruct bins. Qed.

Lemma scan_bins_find fuel j bins num h :
  l_count bins = Z.of_nat (length (l_itens bins)) → l_count bins <= 65535 →
  Forall has_room (l_itens bins) → 0 <= num →
  Z.of_nat j + Z.of_nat fuel = l_count bins →
  scan_bins fuel (Z.of_nat j) bins num h =
    match list_find (fits num) (drop j (l_itens bins)) with
    | Some (i, b) =>
      (0, {| l_itens := <[(j + i)%nat := bin_add b num]> (l_itens bins);
             l_count := l_count bins |})
    | None => (match fuel with O => h | S _ => 1 end, bins)
    end.
Proof.
  intros Hcount Hmax Hroom Hnum.
  revert j h. induction fuel as [| fuel IH]; intros j h Hj.
  - simpl. rewrite drop_ge by lia. done.
  - cbn [scan_bins].
    destruct (Z.ltb_spec (Z.of_nat j) (l_count bins)); [| lia].
    rewrite Nat2Z.id.
    destruct (lookup_lt_is_Some_2 (l_itens bins) j) as [aux Haux]; [lia |].
    rewrite Haux, (drop_S _ _ _ Haux). cbn [list_find].
    pose proof (proj1 (Forall_lookup _ _) Hroom _ _ Haux) as (Hc & Hlt & Hl).
    destruct (decide (fits num aux)) as [Hfit | Hfit].
    + rewrite insert_number_bin_fits by done. simpl.
      unfold store. by rewrite Nat2Z.id, Nat.add_0_r.
    + rewrite insert_number_bin_full by done. simpl.
      unfold store. rewrite Nat2Z.id, list_insert_id, bin_list_eta by done.
      rewrite ushort_id by (unfold is_ushort; lia).
      replace (Z.of_nat j + 1) with (Z.of_nat (S j)) by lia.
      rewrite IH by lia.
      destruct (list_find (fits num) (drop (S j) (l_itens bins)))
        as [[i b] |]; simpl.
      * by rewrite Nat.add_succ_r.
      * by destruct fuel.
Qed.

(** ** The body of the outer loop is a first-fit step *)

Lemma insert_bin_list_append NQ bins b :
  l_count bins = Z.of_nat (length (l_itens bins)) →
  l_count bins <= NQ → l_count bins < 65535 →
  insert_bin_list NQ bins b =
    (0, {| l_itens := l_itens bins ++ [b]; l_count := l_count bins + 1 |}).
Proof.
  intros Hcount Hle Hmax. unfold insert_bin_list.
  destruct (Z.gtb_spec (l_count bins) NQ); [lia |].
  rewrite ushort_id by (unfold is_ushort; lia).
  do 2 f_equal.
  destruct (Z.eqb_spec (l_count bins) 0).
  - by apply malloc_store_app.
  - by apply realloc_store_app.
Qed.

Lemma fill_bins_body_first_fit NQ BS h bins num :
  l_count bins = Z.of_nat (length (l_itens bins)) →
  l_count bins <= NQ → l_count bins < 65535 →
  Forall has_room (l_itens bins) → 0 <= num →
  (l_itens bins = [] → h = 1) →
  fill_bins_body NQ BS (h, bins) num = (0, first_fit BS bins num).
Proof.
  intros Hcount Hle Hmax Hroom Hnum Hflag.
  unfold fill_bins_body, first_fit.
  change 0 with (Z.of_nat 0) at 1.
  rewrite scan_bins_find by (done || lia). rewrite drop_0.
  destruct (list_find (fits num) (l_itens bins)) as [[j b] |]; [done |].
  assert (match Z.to_nat (l_count bins) with O => h | S _ => 1 end = 1)
    as ->.
  { destruct (Z.to_nat (l_count bins)) eqn:E; [| done].
    apply Hflag. destruct (l_itens bins); [done | simpl in Hcount; lia]. }
  simpl. unfold new_bin.
  destruct (insert_number_bin (create_empty_bin BS) num) as [r b].
  by apply insert_bin_list_append.
Qed.

(** ** Properties of a first-fit step *)

Lemma sum_app l1 l2 : sum (l1 ++ l2) = sum l1 + sum l2.
Proof. unfold sum. induction l1 as [| x l1 IH]; simpl; lia. Qed.

Lemma sum_nonneg l : Forall is_ushort l → 0 <= sum l.
Proof.
  unfold sum, is_ushort. induction 1 as [| x l Hx _ IH]; simpl; lia.
Qed.

Lemma bin_ok_left_le BS b : bin_ok BS b → b_left b <= BS.
Proof.
  intros [_ Hit Hl _]. pose proof (sum_nonneg _ Hit). lia.
Qed.

Lemma bin_ok_create BS : 0 <= BS → bin_ok BS (create_empty_bin BS).
Proof. intros H. split; simpl; try done. unfold sum. simpl. lia. Qed.

Lemma bin_ok_add BS b num :
  bin_ok BS b → is_ushort num → fits num b → bin_ok BS (bin_add b num).
Proof.
  intros [Hc Hit Hl Hn] Hnum Hfit. unfold fits in Hfit. split; simpl.
  - rewrite length_app. simpl. lia.
  - apply Forall_app. auto.
  - rewrite sum_app. unfold sum at 2. simpl. lia.
  - lia.
Qed.

Lemma new_bin_fits BS num :
  is_ushort BS → 0 <= num → num <= BS →
  new_bin BS num = bin_add (create_empty_bin BS) num.
Proof.
  intros [_ HBS] Hnum Hle. unfold new_bin.
  rewrite insert_number_bin_fits; simpl; done || lia.
Qed.

Lemma new_bin_oversize BS num :
  BS < num → new_bin BS num = create_empty_bin BS.
Proof.
  intros Hgt. unfold new_bin.
  rewrite insert_number_bin_full; simpl; done || lia.
Qed.

Lemma bin_ok_new BS num :
  is_ushort BS → is_ushort num → bin_ok BS (new_bin BS num).
Proof.
  intros HBS Hnum. destruct (decide (num <= BS)).
  - rewrite new_bin_fits by (done || apply Hnum).
    apply bin_ok_add; [apply bin_ok_create, HBS | done | done].
  - rewrite new_bin_oversize by lia. apply bin_ok_create, HBS.
Qed.

Lemma first_fit_ok BS bins num :
  is_ushort BS → is_ushort num →
  list_ok BS bins → list_ok BS (first_fit BS bins num).
Proof.
  intros HBS Hnum [Hcount Hbins]. unfold first_fit.
  destruct (list_find (fits num) (l_itens bins)) as [[j b] |] eqn:Hfind.
  - apply list_find_Some in Hfind as (Hj & Hfit & _).
    split; simpl.
    + by rewrite length_insert.
    + apply Forall_insert; [done |].
      apply bin_ok_add; [| done | done].
      by apply (proj1 (Forall_lookup _ _) Hbins j).
  - split; simpl.
    + rewrite length_app. simpl. lia.
    + apply Forall_app. split; [done |].
      apply Forall_singleton. by apply bin_ok_new.
Qed.

Lemma stored_insert bins j b num :
  l_itens bins !! j = Some b →
  stored {| l_itens := <[j := bin_add b num]> (l_itens bins);
            l_count := l_count bins |} ≡ₚ num :: stored bins.
Proof.
  intros Hj. unfold stored. simpl.
  rewrite insert_take_drop by (by eapply lookup_lt_Some).
  rewrite <- (take_drop_middle _ _ _ Hj) at 3.
  rewrite !fmap_app, !fmap_cons, !concat_app, !concat_cons. simpl.
  rewrite <- (assoc_L (++) (b_itens b)), !(assoc_L (++) (concat _)).
  simpl. symmetry. apply Permutation_middle.
Qed.

Lemma stored_append bins b n :
  stored {| l_itens := l_itens bins ++ [b]; l_count := n |}
  ≡ₚ b_itens b ++ stored bins.
Proof.
  unfold stored. simpl. rewrite fmap_app, concat_app. simpl.
  rewrite (right_id_L [] (++)). apply Permutation_app_comm.
Qed.

Lemma first_fit_stored BS bins num :
  is_ushort BS → is_ushort num → list_ok BS bins →
  stored (first_fit BS bins num)
  ≡ₚ (if decide (num <= BS) then [num] else []) ++ stored bins.
Proof.
  intros HBS Hnum [Hcount Hbins]. unfold first_fit.
  destruct (list_find (fits num) (l_itens bins)) as [[j b] |] eqn:Hfind.
  - apply list_find_Some in Hfind as (Hj & Hfit & _).
    rewrite stored_insert by done.
    pose proof (proj1 (Forall_lookup _ _) Hbins j b Hj) as Hb.
    apply bin_ok_left_le in Hb. unfold fits in Hfit.
    by rewrite decide_True by lia.
  - rewrite stored_append. destruct (decide (num <= BS)).
    + rewrite new_bin_fits by (done || apply Hnum). done.
    + rewrite new_bin_oversize by lia. done.
Qed.

Lemma first_fit_length BS bins num :
  (length (l_itens bins) ≤ length (l_itens (first_fit BS bins num))
   ≤ S (length (l_itens bins)))%nat.
Proof.
  unfold first_fit.
  destruct (list_find (fits num) (l_itens bins)) as [[j b] |]; simpl.
  - rewrite length_insert. lia.
  - rewrite length_app. simpl. lia.
Qed.

Lemma first_fit_nonempty BS bins num :
  l_itens (first_fit BS bins num) ≠ [].
Proof.
  unfold first_fit.
  destruct (list_find (fits num) (l_itens bins)) as [[j b] |] eqn:Hfind;
    simpl.
  - apply list_find_Some in Hfind as (Hj & _).
    apply lookup_lt_Some in Hj. intros Hnil.
    apply (f_equal length) in Hnil. rewrite length_insert in Hnil.
    simpl in Hnil. lia.
  - by destruct (l_itens bins).
Qed.

Lemma new_bin_length BS num : (length (b_itens (new_bin BS num)) ≤ 1)%nat.
Proof.
  unfold new_bin, insert_number_bin, create_empty_bin. simpl.
  destruct (num <=? BS); simpl; lia.
Qed.

Lemma first_fit_items_le BS bins num k :
  Forall (λ b, (length (b_itens b) ≤ k)%nat) (l_itens bins) →
  Forall (λ b, (length (b_itens b) ≤ S k)%nat)
    (l_itens (first_fit BS bins num)).
Proof.
  intros Hle.
  assert (Hle' : Forall (λ b, (length (b_itens b) ≤ S k)%nat) (l_itens bins))
    by (eapply Forall_impl; [done | simpl; lia]).
  unfold first_fit.
  destruct (list_find (fits num) (l_itens bins)) as [[j b] |] eqn:Hfind;
    simpl.
  - apply list_find_Some in Hfind as (Hj & _).
    apply Forall_insert; [done |]. simpl. rewrite length_app. simpl.
    pose proof (proj1 (Forall_lookup _ _) Hle j b Hj) as Hb. simpl in Hb. lia.
  - apply Forall_app. split; [done |]. apply Forall_singleton.
    pose proof (new_bin_length BS num). lia.
Qed.

(** A first-fit step never raises the space left of a bin of the list. *)
Lemma first_fit_left_le BS bins num j b :
  0 <= num → l_itens bins !! j = Some b →
  ∃ b', l_itens (first_fit BS bins num) !! j = Some b' ∧
        b_left b' <= b_left b.
Proof.
  intros Hnum Hj. unfold first_fit.
  destruct (list_find (fits num) (l_itens bins)) as [[i bi] |] eqn:Hfind;
    simpl.
  - apply list_find_Some in Hfind as (Hi & _).
    destruct (decide (i = j)) as [-> | Hne].
    + exists (bin_add bi num). split.
      * apply list_lookup_insert_eq. by eapply lookup_lt_Some.
      * simplify_eq. simpl. lia.
    + exists b. split; [| lia]. by rewrite list_lookup_insert_ne.
  - exists b. split; [| lia]. by apply lookup_app_l_Some.
Qed.

(** ** The run of [fill_bins] from the empty list *)

Section Run.

Context (NQ BS : Z) (values : list Z).
Hypothesis NQ_range : is_ushort NQ.
Hypothesis BS_range : is_ushort BS.
Hypothesis values_range : Forall is_ushort values.
Hypothesis values_length : (Z.to_nat NQ ≤ length values)%nat.

(** The state after [k] iterations. *)
Local Abbreviation state k :=
  (fill_bins_iter NQ BS k values create_empty_bin_list) (only parsing).

Lemma run_inv_init : run_inv BS values 0 (state 0).
Proof. by split. Qed.

Lemma run_step k v :
  (k < Z.to_nat NQ)%nat →
  run_inv BS values k (state k) → values !! k = Some v →
  state (S k) = (0, first_fit BS (state k).2 v) ∧
  run_inv BS values (S k) (state (S k)).
Proof using NQ_range BS_range values_range values_length.
  intros Hk [[Hcount Hbins] Hlen Hitems Hstart Hnext Hstored] Hv.
  pose proof (proj1 (Forall_lookup _ _) values_range _ _ Hv) as Hvr.
  destruct NQ_range as [_ HNQ], BS_range as [HBS0 HBS].
  assert (Hstep : state (S k) = (0, first_fit BS (state k).2 v)).
  { unfold state. cbn [fill_bins_iter]. rewrite Hv. fold (state k).
    destruct (state k) as [h bins] eqn:Hst. simpl in *.
    apply fill_bins_body_first_fit; try lia; [| apply Hvr |].
    - apply Forall_forall. intros b Hb.
      pose proof (proj1 (Forall_forall _ _) Hbins b Hb) as Hok.
      pose proof (proj1 (Forall_forall _ _) Hitems b Hb) as Hb_le.
      pose proof (bin_ok_left_le _ _ Hok). destruct Hok as [Hc _ _ _].
      simpl in Hb_le. unfold has_room. lia.
    - intros Hnil. destruct (decide (k = 0%nat)) as [-> | Hne]; [auto |].
      by destruct (Hnext Hne). }
  split; [done |]. rewrite Hstep.
  pose proof (first_fit_length BS (state k).2 v).
  split; simpl.
  - by apply first_fit_ok.
  - lia.
  - by apply first_fit_items_le.
  - done.
  - intros _. split; [done | apply first_fit_nonempty].
  - rewrite first_fit_stored by done.
    rewrite (take_S_r _ _ _ Hv), filter_app, Hstored.
    rewrite Permutation_app_comm. apply Permutation_app_head.
    rewrite filter_cons, filter_nil. by destruct (decide (v <= BS)).
Qed.

(** A bin met while a number is packed can take one more number. *)
Lemma run_bins_have_room k :
  (k < Z.to_nat NQ)%nat → run_inv BS values k (state k) →
  Forall has_room (l_itens (state k).2).
Proof using NQ_range BS_range values_range values_length.
  intros Hk [[_ Hbins] _ Hitems _ _ _].
  destruct NQ_range as [_ HNQ], BS_range as [_ HBS].
  apply Forall_forall. intros b Hb.
  pose proof (proj1 (Forall_forall _ _) Hbins b Hb) as Hok.
  pose proof (proj1 (Forall_forall _ _) Hitems b Hb) as Hb_le.
  pose proof (bin_ok_left_le _ _ Hok). destruct Hok as [Hc _ _ _].
  simpl in Hb_le. unfold has_room. lia.
Qed.

Lemma run_inv_state k :
  (k ≤ Z.to_nat NQ)%nat → run_inv BS values k (state k).
Proof using NQ_range BS_range values_range values_length.
  induction k as [| k IH]; intros Hk; [apply run_inv_init |].
  destruct (lookup_lt_is_Some_2 values k) as [v Hv]; [lia |].
  apply (run_step k v); [lia | apply IH; lia | done].
Qed.

Lemma run_state_S k v :
  (k < Z.to_nat NQ)%nat → values !! k = Some v →
  state (S k) = (0, first_fit BS (state k).2 v).
Proof using NQ_range BS_range values_range values_length.
  intros Hk Hv. apply run_step; [done | apply run_inv_state; lia | done].
Qed.

End Run.

Lemma run_left_monotone NQ BS values k k' j b :
  is_ushort NQ → is_ushort BS → Forall is_ushort values →
  (Z.to_nat NQ ≤ length values)%nat →
  (k ≤ k' ≤ Z.to_nat NQ)%nat →
  l_itens (fill_bins_iter NQ BS k values create_empty_bin_list).2 !! j
    = Some b →
  ∃ b',
    l_itens (fill_bins_iter NQ BS k' values create_empty_bin_list).2 !! j
      = Some b' ∧
    b_left b' <= b_left b.
Proof.
  intros HNQ HBS Hvalues Hlen [Hk Hk'] Hj.
  induction Hk as [| k' Hk IH].
  - exists b. split; [done | lia].
  - destruct IH as (b1 & Hb1 & Hle); [lia |].
    destruct (lookup_lt_is_Some_2 values k') as [v Hv]; [lia |].
    rewrite (run_state_S NQ BS values) with (v := v) by (done || lia).
    destruct (first_fit_left_le BS
                (fill_bins_iter NQ BS k' values create_empty_bin_list).2
                v j b1) as (b2 & Hb2 & Hle2); [| done |].
    + by apply (proj1 (Forall_lookup _ _) Hvalues _ _ Hv).
    + exists b2. split; [done | lia].
Qed.

(** C1.  For every block of [NUMBERS_QUANTITY] numbers, sorted or not,
    packed by [fill_bins] from the empty list: after any number of
    iterations, and so in the returned list, every bin has
    [left = BIN_SIZE - sum of its items] and [left >= 0], that is, the sum
    of its items is at most [BIN_SIZE]; and the space left of a bin never
    increases from one point of the run to a later one. *)
Theorem fill_bins_capacity_invariant (NQ BS : Z) (values : list Z) :
  is_ushort NQ → is_ushort BS → Forall is_ushort values →
  (Z.to_nat NQ ≤ length values)%nat →
  (∀ b, b ∈ l_itens (fill_bins NQ BS values create_empty_bin_list).2 →
     b_left b = BS - sum (b_itens b) ∧ 0 <= b_left b ∧
     sum (b_itens b) <= BS) ∧
  (∀ k b, (k ≤ Z.to_nat NQ)%nat →
     b ∈ l_itens (fill_bins_iter NQ BS k values create_empty_bin_list).2 →
     b_left b = BS - sum (b_itens b) ∧ 0 <= b_left b ∧
     sum (b_itens b) <= BS) ∧
  (∀ k k' j b, (k ≤ k' ≤ Z.to_nat NQ)%nat →
     l_itens (fill_bins_iter NQ BS k values create_empty_bin_list).2 !! j
       = Some b →
     ∃ b',
       l_itens (fill_bins_iter NQ BS k' values create_empty_bin_list).2 !! j
         = Some b' ∧
       b_left b' <= b_left b).
Proof.
  intros HNQ HBS Hvalues Hlen.
  assert (Hk : ∀ k b, (k ≤ Z.to_nat NQ)%nat →
     b ∈ l_itens (fill_bins_iter NQ BS k values create_empty_bin_list).2 →
     b_left b = BS - sum (b_itens b) ∧ 0 <= b_left b ∧
     sum (b_itens b) <= BS).
  { intros k b Hk Hb.
    destruct (run_inv_state NQ BS values HNQ HBS Hvalues Hlen k Hk)
      as [[_ Hbins] _ _ _ _ _].
    destruct (proj1 (Forall_forall _ _) Hbins b Hb) as [_ _ Hl Hn]. lia. }
  split; [| split].
  - intros b. apply Hk. lia.
  - done.
  - intros k k' j b. by apply run_left_monotone.
Qed.

(** C2.  For every number [v] packed into a non-empty list of bins (a
    well-formed list of at most [NUMBERS_QUANTITY] bins, whatever the
    incoming flag), the body of the loop of [fill_bins] puts [v] into the
    first bin, in the order of the list, whose space left is at least [v],
    and changes nothing else; a later bin that also has room for [v] is
    left as it was; and when no bin has room, a new bin of size [BIN_SIZE]
    is created and appended at the end of the list. *)
Theorem fill_bins_body_is_first_fit (NQ BS h : Z) (bins : bin_list) (v : Z) :
  is_ushort BS → is_ushort v →
  list_ok BS bins → Forall (λ b, b_count b < 65535) (l_itens bins) →
  l_count bins <= NQ → l_count bins < 65535 →
  l_itens bins ≠ [] →
  let bins' := (fill_bins_body NQ BS (h, bins) v).2 in
  (∀ j b, l_itens bins !! j = Some b → v <= b_left b →
     (∀ i bi, (i < j)%nat → l_itens bins !! i = Some bi → ¬ v <= b_left bi) →
     bins' =
       {| l_itens :=
            <[j := {| b_itens := b_itens b ++ [v];
                      b_left := b_left b - v;
                      b_count := b_count b + 1 |}]> (l_itens bins);
          l_count := l_count bins |}) ∧
  (∀ j0 j1 b0 b1, (j0 < j1)%nat →
     l_itens bins !! j0 = Some b0 → l_itens bins !! j1 = Some b1 →
     v <= b_left b0 → v <= b_left b1 →
     l_itens bins' !! j1 = Some b1) ∧
  ((∀ b, b ∈ l_itens bins → ¬ v <= b_left b) →
     ∃ nb,
       bins' = {| l_itens := l_itens bins ++ [nb];
                  l_count := l_count bins + 1 |} ∧
       nb = (insert_number_bin (create_empty_bin BS) v).2 ∧
       b_left nb + sum (b_itens nb) = BS).
Proof.
  intros HBS Hv Hok Hcounts Hle Hmax Hne bins'.
  assert (Hbins' : bins' = first_fit BS bins v).
  { unfold bins'. rewrite fill_bins_body_first_fit; try done.
    - apply Hok.
    - apply Forall_forall. intros b Hb.
      pose proof (proj1 (Forall_forall _ _) (list_ok_bins _ _ Hok) b Hb)
        as Hbok.
      pose proof (proj1 (Forall_forall _ _) Hcounts b Hb) as Hc.
      pose proof (bin_ok_left_le _ _ Hbok). destruct Hbok as [? _ _ _].
      destruct HBS. unfold has_room. simpl in Hc. lia.
    - apply Hv. }
  clearbody bins'. subst bins'. unfold first_fit. split; [| split].
  - intros j b Hj Hfit Hfirst.
    assert (list_find (fits v) (l_itens bins) = Some (j, b)) as ->; [| done].
    apply list_find_Some. split_and!; [done | done |].
    intros i bi Hi Hlt. by apply Hfirst with i.
  - intros j0 j1 b0 b1 Hlt Hj0 Hj1 Hfit0 Hfit1.
    destruct (list_find (fits v) (l_itens bins)) as [[j b] |] eqn:Hfind.
    + apply list_find_Some in Hfind as (Hj & Hfit & Hfirst). simpl.
      rewrite list_lookup_insert_ne; [done |].
      intros ->. destruct (decide (j0 < j1)%nat) as [Hlt' | ]; [| lia].
      by apply (Hfirst j0 b0 Hj0 Hlt').
    + apply list_find_None in Hfind.
      by destruct (proj1 (Forall_lookup _ _) Hfind j0 b0 Hj0).
  - intros Hnone.
    assert (list_find (fits v) (l_itens bins) = None) as ->.
    { apply list_find_None, Forall_forall. intros b Hb. by apply Hnone. }
    exists (new_bin BS v). split_and!; [done | done |].
    destruct (bin_ok_new BS v HBS Hv) as [_ _ Hl _]. lia.
Qed.

(** C6.  At every point of [fill_bins] on [NUMBERS_QUANTITY] numbers, from
    the empty list: after [k] iterations the list holds at most [k] bins,
    hence at most [NUMBERS_QUANTITY], its [count] is the number of its bins,
    and so it is at the end of the run. *)
Theorem fill_bins_at_most_n_bins (NQ BS : Z) (values : list Z) :
  is_ushort NQ → is_ushort BS → Forall is_ushort values →
  (Z.to_nat NQ ≤ length values)%nat →
  (∀ k, (k ≤ Z.to_nat NQ)%nat →
     let bins := (fill_bins_iter NQ BS k values create_empty_bin_list).2 in
     (length (l_itens bins) ≤ k)%nat ∧
     l_count bins = Z.of_nat (length (l_itens bins)) ∧
     l_count bins <= NQ) ∧
  (let bins := (fill_bins NQ BS values create_empty_bin_list).2 in
   (length (l_itens bins) ≤ Z.to_nat NQ)%nat ∧
   l_count bins = Z.of_nat (length (l_itens bins)) ∧
   l_count bins <= NQ).
Proof.
  intros HNQ HBS Hvalues Hlen.
  assert (Hk : ∀ k, (k ≤ Z.to_nat NQ)%nat →
     let bins := (fill_bins_iter NQ BS k values create_empty_bin_list).2 in
     (length (l_itens bins) ≤ k)%nat ∧
     l_count bins = Z.of_nat (length (l_itens bins)) ∧
     l_count bins <= NQ).
  { intros k Hk bins.
    destruct (run_inv_state NQ BS values HNQ HBS Hvalues Hlen k Hk)
      as [[Hcount _] Hle _ _ _ _].
    fold bins in Hcount, Hle. destruct HNQ as [HNQ0 _].
    split_and!; [done | done | lia]. }
  split; [done |].
  apply (Hk (Z.to_nat NQ)). lia.
Qed.

(** The numbers stored by a run are the numbers read that are at most
    [BIN_SIZE], each as often as it occurs. *)
Lemma fill_bins_stored NQ BS values :
  is_ushort NQ → is_ushort BS → Forall is_ushort values →
  (Z.to_nat NQ ≤ length values)%nat →
  stored (fill_bins NQ BS values create_empty_bin_list).2
  ≡ₚ filter (λ v, v <= BS) (numbers NQ values).
Proof.
  intros HNQ HBS Hvalues Hlen.
  by destruct (run_inv_state NQ BS values HNQ HBS Hvalues Hlen (Z.to_nat NQ))
    as [_ _ _ _ _ Hstored]; [lia |].
Qed.

(** X4.  When no number exceeds [BIN_SIZE], the bins hold the input, as a
    multiset. *)
Lemma fill_bins_conservation_fitting NQ BS values :
  is_ushort NQ → is_ushort BS → Forall is_ushort values →
  (Z.to_nat NQ ≤ length values)%nat →
  Forall (λ v, v <= BS) (numbers NQ values) →
  stored (fill_bins NQ BS values create_empty_bin_list).2
  ≡ₚ numbers NQ values.
Proof.
  intros HNQ HBS Hvalues Hlen Hfit.
  rewrite fill_bins_stored by done.
  induction Hfit as [| v l Hv _ IH]; [done |].
  rewrite filter_cons, decide_True by done. by rewrite IH.
Qed.

(** C4.  Conservation fails on the code for a number above [BIN_SIZE]:
    with [BIN_SIZE = 10] and the single number 11, [fill_bins] returns 0
    and a list of one empty bin, and the bins store no number at all. *)
Theorem fill_bins_drops_oversize :
  fill_bins 1 10 [11] create_empty_bin_list =
    (0, {| l_itens := [ {| b_itens := []; b_left := 10; b_count := 0 |} ];
           l_count := 1 |}) ∧
  stored (fill_bins 1 10 [11] create_empty_bin_list).2 = [] ∧
  ¬ stored (fill_bins 1 10 [11] create_empty_bin_list).2 ≡ₚ [11].
Proof.
  split_and!; [done | done |].
  intros H. apply Permutation_length in H. done.
Qed.

(** C10.  For every number [v] above [BIN_SIZE] read by [fill_bins]: the
    insertion of [v] into the fresh bin is refused by the admission test,
    the fresh bin is appended all the same, empty and with [left] equal to
    [BIN_SIZE]; the bins that were there are unchanged, so [v] is stored
    nowhere, neither then nor at the end of the run; the flag is 0 after
    that number, and the run returns 0. *)
Theorem fill_bins_oversize_appends_empty_bin (NQ BS : Z) (values : list Z)
    (k : nat) (v : Z) :
  is_ushort NQ → is_ushort BS → Forall is_ushort values →
  (Z.to_nat NQ ≤ length values)%nat →
  (k < Z.to_nat NQ)%nat → values !! k = Some v → BS < v →
  let st := fill_bins_iter NQ BS k values create_empty_bin_list in
  let st' := fill_bins_iter NQ BS (S k) values create_empty_bin_list in
  insert_number_bin (create_empty_bin BS) v = (1, create_empty_bin BS) ∧
  st' = (0, {| l_itens :=
                 l_itens st.2 ++
                 [ {| b_itens := []; b_left := BS; b_count := 0 |} ];
               l_count := l_count st.2 + 1 |}) ∧
  stored st'.2 = stored st.2 ∧
  (v ∉ stored st'.2) ∧
  (v ∉ stored (fill_bins NQ BS values create_empty_bin_list).2) ∧
  (fill_bins NQ BS values create_empty_bin_list).1 = 0.
Proof.
  intros HNQ HBS Hvalues Hlen Hk Hv Hgt st st'.
  assert (Hins :
    insert_number_bin (create_empty_bin BS) v = (1, create_empty_bin BS)).
  { apply insert_number_bin_full. simpl. lia. }
  assert (Hst' : st' = (0, {| l_itens := l_itens st.2 ++ [create_empty_bin BS];
                              l_count := l_count st.2 + 1 |})).
  { unfold st'. rewrite (run_state_S NQ BS values) with (v := v) by done.
    fold st. unfold first_fit.
    destruct (run_inv_state NQ BS values HNQ HBS Hvalues Hlen k)
      as [[_ Hbins] _ _ _ _ _]; [lia |]. fold st in Hbins.
    assert (list_find (fits v) (l_itens st.2) = None) as ->.
    { apply list_find_None. eapply Forall_impl; [done |].
      intros b Hb%bin_ok_left_le. unfold fits. lia. }
    by rewrite new_bin_oversize. }
  assert (Hnot : ∀ l, l ≡ₚ filter (λ v, v <= BS) (numbers NQ values) → v ∉ l).
  { intros l Hl. rewrite Hl. intros [Hle _]%list_elem_of_filter. lia. }
  split_and!; [done | done | | | |].
  - rewrite Hst'. simpl. unfold stored. simpl.
    rewrite fmap_app, concat_app. simpl. by rewrite (right_id_L [] (++)).
  - destruct (run_inv_state NQ BS values HNQ HBS Hvalues Hlen (S k))
      as [_ _ _ _ _ Hstored]; [lia |]. fold st' in Hstored.
    rewrite Hstored. intros [Hle _]%list_elem_of_filter. lia.
  - apply Hnot. by apply fill_bins_stored.
  - destruct (run_inv_state NQ BS values HNQ HBS Hvalues Hlen (Z.to_nat NQ))
      as [_ _ _ _ Hflag _]; [lia |].
    apply Hflag. lia.
Qed.

(** C5, as the code has it by design.  For every number [v] above
    [BIN_SIZE] read by [fill_bins], no bin ever reports a negative space
    left: the admission test [v <= left] refuses [v] in every bin of the
    list and in a freshly created bin alike, leaving the bin as it is, and
    at every point of the run, before and after [v], the space left of
    every bin lies between 0 and [BIN_SIZE]. *)
Theorem fill_bins_oversize_never_negative (NQ BS : Z) (values : list Z)
    (k : nat) (v : Z) :
  is_ushort NQ → is_ushort BS → Forall is_ushort values →
  (Z.to_nat NQ ≤ length values)%nat →
  (k < Z.to_nat NQ)%nat → values !! k = Some v → BS < v →
  insert_number_bin (create_empty_bin BS) v = (1, create_empty_bin BS) ∧
  (∀ b, b ∈ l_itens (fill_bins_iter NQ BS k values
                       create_empty_bin_list).2 →
     insert_number_bin b v = (1, b)) ∧
  (∀ k' b, (k' ≤ Z.to_nat NQ)%nat →
     b ∈ l_itens (fill_bins_iter NQ BS k' values create_empty_bin_list).2 →
     0 <= b_left b <= BS) ∧
  (∀ b, b ∈ l_itens (fill_bins NQ BS values create_empty_bin_list).2 →
     0 <= b_left b <= BS).
Proof.
  intros HNQ HBS Hvalues Hlen Hk Hv Hgt.
  assert (Hrange : ∀ k' b, (k' ≤ Z.to_nat NQ)%nat →
     b ∈ l_itens (fill_bins_iter NQ BS k' values create_empty_bin_list).2 →
     0 <= b_left b <= BS).
  { intros k' b Hk' Hb.
    destruct (run_inv_state NQ BS values HNQ HBS Hvalues Hlen k' Hk')
      as [[_ Hbins] _ _ _ _ _].
    pose proof (proj1 (Forall_forall _ _) Hbins b Hb) as Hok.
    pose proof (bin_ok_left_le _ _ Hok). destruct Hok as [_ _ _ Hn]. lia. }
  split_and!.
  - apply insert_number_bin_full. simpl. lia.
  - intros b Hb. apply insert_number_bin_full.
    pose proof (Hrange k b ltac:(lia) Hb). lia.
  - done.
  - intros b. apply Hrange. lia.
Qed.

(** C5, as stated, fails: with [BIN_SIZE = 10] and the single number 11,
    no bin of the list holds 11 and reports a negative space left. *)
Lemma fill_bins_oversize_not_negative :
  ¬ ∃ b, b ∈ l_itens (fill_bins 1 10 [11] create_empty_bin_list).2 ∧
         11 ∈ b_itens b ∧ b_left b < 0.
Proof.
  intros (b & Hb & Hin & Hneg). vm_compute in Hb.
  apply list_elem_of_singleton in Hb. subst b. simpl in Hneg. lia.
Qed.

(** ** The sort *)

(** C7.  The sort does not order the numbers on the code: the block is of
    [unsigned short] cells and [qsort] is told elements of [sizeof(int)]
    bytes, so it moves pairs of cells, ordered as [int], and takes in as
    many cells after the numbers as there are numbers.  With the numbers
    1, 2, 3, 4 followed by four zero cells, the numbers read after the sort
    are 3, 4, 1, 2: a permutation, not in descending order.  With the
    numbers 1, 2 followed by two zero cells, the block is left as it is. *)
Theorem sort_numbers_array_not_descending :
  numbers 4 (sort_numbers_array 4 [1; 2; 3; 4; 0; 0; 0; 0]) = [3; 4; 1; 2] ∧
  ¬ descending (numbers 4 (sort_numbers_array 4 [1; 2; 3; 4; 0; 0; 0; 0])) ∧
  numbers 2 (sort_numbers_array 2 [1; 2; 0; 0]) = [1; 2] ∧
  ¬ descending (numbers 2 (sort_numbers_array 2 [1; 2; 0; 0])).
Proof.
  split_and!; [done | | done |].
  - intros H. specialize (H 0%nat 3 4 eq_refl eq_refl). lia.
  - intros H. specialize (H 0%nat 1 2 eq_refl eq_refl). lia.
Qed.

(** Whatever the two cells after the numbers 1, 2 hold, the numbers read
    after the sort are not 2, 1. *)
Lemma msort_with_tmp_pair compar x y :
  msort_with_tmp 2 compar [x; y] =
    if compar x y <=? 0 then [x; y] else [y; x].
Proof. reflexivity. Qed.

Lemma sort_numbers_array_pair_any_tail g1 g2 :
  is_ushort g1 → is_ushort g2 →
  numbers 2 (sort_numbers_array 2 [1; 2; g1; g2]) ≠ [2; 1].
Proof.
  unfold is_ushort. intros Hg1 Hg2.
  unfold sort_numbers_array, numbers, qsort.
  change (Z.to_nat 2) with 2%nat.
  cbn [Nat.mul Nat.add take drop ints_of_block length].
  rewrite msort_with_tmp_pair.
  change (int_of_cells 1 2) with 131073.
  pose proof (eq_refl : int_of_cells g1 g2 = int_of_cells g1 g2) as HG.
  revert HG. generalize (int_of_cells g1 g2) at 1 3 4 as G. intros G HG.
  destruct (Z.leb_spec (comparison_numbers 131073 G) 0) as [Hcmp | Hcmp].
  - unfold block_of_ints. cbn [map concat app take].
    change (cells_of_int 131073) with [1; 2]. simpl. congruence.
  - unfold block_of_ints, cells_of_int. cbn [map concat app take].
    intros Heq. injection Heq as H1 H2.
    assert (G = 65538) as ->.
    { subst G. unfold int_of_cells, int32 in *.
      Z.div_mod_to_equations. lia. }
    vm_compute in Hcmp. done.
Qed.

(** *** The version on [int]: the same call sorts *)

Lemma msort_merge_perm compar b1 b2 :
  msort_merge compar b1 b2 ≡ₚ b1 ++ b2.
Proof.
  revert b2. induction b1 as [| x1 b1 IH1]; intros b2.
  - by destruct b2.
  - induction b2 as [| x2 b2 IH2].
    + by rewrite (right_id_L [] (++)).
    + cbn [msort_merge]. destruct (compar x1 x2 <=? 0).
      * by rewrite IH1.
      * change (x2 :: msort_merge compar (x1 :: b1) b2
                ≡ₚ (x1 :: b1) ++ x2 :: b2).
        rewrite IH2. apply Permutation_middle.
Qed.

Lemma msort_with_tmp_perm depth compar b :
  msort_with_tmp depth compar b ≡ₚ b.
Proof.
  revert b. induction depth as [| depth IH]; intros b; [done |].
  cbn [msort_with_tmp]. destruct (length b <=? 1)%nat; [done |].
  by rewrite msort_merge_perm, !IH, take_drop.
Qed.

Lemma qsort_perm compar l : qsort compar l ≡ₚ l.
Proof. apply msort_with_tmp_perm. Qed.

(** The depth [qsort] enters with is enough: with any depth that is at
    least the length of the block the result is the same. *)
Lemma msort_with_tmp_depth compar : ∀ d d' b,
  (length b ≤ d)%nat → (length b ≤ d')%nat →
  msort_with_tmp d compar b = msort_with_tmp d' compar b.
Proof.
  induction d as [| d IH]; intros d' b Hd Hd'.
  - destruct b; [| simpl in Hd; lia]. by destruct d'.
  - destruct d' as [| d'].
    + destruct b; [done | simpl in Hd'; lia].
    + cbn [msort_with_tmp].
      destruct (Nat.leb_spec (length b) 1) as [| Hlen]; [done |].
      assert (1 ≤ length b / 2 < length b)%nat as [H1 H2].
      { split; [apply Nat.div_le_lower_bound; lia
               | apply Nat.div_lt; lia]. }
      f_equal; apply IH; rewrite ?length_take, ?length_drop; lia.
Qed.

Lemma comparison_numbers_le x y :
  small x → small y → (comparison_numbers x y <= 0 ↔ y <= x).
Proof.
  unfold small, comparison_numbers, int32. intros Hx Hy.
  Z.div_mod_to_equations. lia.
Qed.

Lemma msort_merge_sorted b1 b2 :
  Forall small b1 → Forall small b2 →
  Sorted (λ a b, b <= a) b1 → Sorted (λ a b, b <= a) b2 →
  Sorted (λ a b, b <= a) (msort_merge comparison_numbers b1 b2).
Proof.
  intros Hs1. revert b2.
  induction b1 as [| x1 b1 IH1]; intros b2 Hs2 Hb1 Hb2.
  - by destruct b2.
  - apply Forall_cons in Hs1 as [Hx1 Hs1].
    apply Sorted_inv in Hb1 as [Hb1 Hhd1].
    induction b2 as [| x2 b2 IH2]; [by constructor |].
    apply Forall_cons in Hs2 as [Hx2 Hs2].
    apply Sorted_inv in Hb2 as [Hb2 Hhd2].
    pose proof (comparison_numbers_le x1 x2 Hx1 Hx2) as Hcmp.
    cbn [msort_merge].
    destruct (Z.leb_spec (comparison_numbers x1 x2) 0) as [Hle | Hgt].
    + constructor.
      * apply IH1; [done | by constructor | done | by constructor].
      * destruct b1 as [| y1 b1]; cbn [msort_merge].
        -- constructor. by apply Hcmp.
        -- apply HdRel_inv in Hhd1.
           destruct (comparison_numbers y1 x2 <=? 0); constructor;
             [done | by apply Hcmp].
    + change (Sorted (λ a b, b <= a)
                (x2 :: msort_merge comparison_numbers (x1 :: b1) b2)).
      constructor; [by apply IH2 |].
      destruct b2 as [| y2 b2]; cbn [msort_merge].
      * constructor. lia.
      * apply HdRel_inv in Hhd2.
        destruct (comparison_numbers x1 y2 <=? 0); constructor; [lia | done].
Qed.

Lemma msort_with_tmp_sorted : ∀ depth b,
  (length b ≤ depth)%nat → Forall small b →
  Sorted (λ a b, b <= a) (msort_with_tmp depth comparison_numbers b).
Proof.
  induction depth as [| depth IH]; intros b Hlen Hb.
  - destruct b; [constructor | simpl in Hlen; lia].
  - cbn [msort_with_tmp].
    destruct (Nat.leb_spec (length b) 1) as [Hle | Hgt].
    + destruct b as [| x [| y b]]; [constructor | | simpl in Hle; lia].
      by repeat constructor.
    + assert (1 ≤ length b / 2 < length b)%nat as [H1 H2].
      { split; [apply Nat.div_le_lower_bound; lia
               | apply Nat.div_lt; lia]. }
      apply msort_merge_sorted.
      * rewrite msort_with_tmp_perm. by apply Forall_take.
      * rewrite msort_with_tmp_perm. by apply Forall_drop.
      * apply IH; [rewrite length_take; lia | by apply Forall_take].
      * apply IH; [rewrite length_drop; lia | by apply Forall_drop].
Qed.

Lemma qsort_sorted l :
  Forall small l → Sorted (λ a b, b <= a) (qsort comparison_numbers l).
Proof. intros Hl. by apply msort_with_tmp_sorted. Qed.

Lemma Sorted_descending l : Sorted (λ a b, b <= a) l → descending l.
Proof.
  induction 1 as [| x l Hs IH Hhd]; intros i a b Ha Hb; [done |].
  destruct i as [| i]; simpl in *.
  - simplify_eq. destruct Hhd; simplify_eq/=. done.
  - by apply (IH i).
Qed.

(** X16.  On a block of [NUMBERS_QUANTITY] non-negative [int] numbers the call
    of [qsort] returns a permutation in descending order. *)
Lemma int_sort_numbers_array_descending NQ values :
  Forall small values → length values = Z.to_nat NQ →
  IntVariant.sort_numbers_array NQ values ≡ₚ values ∧
  descending (IntVariant.sort_numbers_array NQ values).
Proof.
  intros Hsmall Hlen. unfold IntVariant.sort_numbers_array.
  rewrite <- Hlen, firstn_all, drop_all, (right_id_L [] (++)).
  split; [apply qsort_perm | by apply Sorted_descending, qsort_sorted].
Qed.

(** ** The process *)

(** X19.  With fewer than four arguments after the program name, the status is
    1. *)
Lemma main_usage argc argv generated values_block list_allocated :
  argc < 5 →
  main argc argv generated values_block list_allocated = Exited 1.
Proof.
  intros H. unfold main. by destruct (Z.ltb_spec argc 5); [| lia].
Qed.

(** C8.  A failed allocation does not always give the status 1: when the
    block of numbers is allocated and the [malloc] of
    [create_empty_bin_list] fails, the process exits with the status 0. *)
Theorem main_list_allocation_failure (argc : Z)
    (argv generated cells : list Z) :
  5 <= argc →
  main argc argv generated (Some cells) false = Exited 0.
Proof.
  intros H. unfold main. destruct (Z.ltb_spec argc 5); [lia |].
  by destruct (argc >? 5).
Qed.

(** C9.  With zero numbers to pack the report divides by zero: the average
    of [print_numbers] is [total / NUMBERS_QUANTITY] without a guard, so
    [print_numbers] has no defined result, and [main], which prints the
    numbers before it fills the bins, does not reach [fill_bins]. *)
Theorem print_numbers_zero_quantity (values argv generated cells : list Z) :
  print_numbers 0 values = None ∧
  main 5 (0 :: argv) generated (Some cells) true = Undefined.
Proof. done. Qed.

(** ** The examples of the specification, run on the model *)

(** Bins of size 10 and the numbers 6, 5, 4, 3: two bins, 6 with 4 and 5
    with 3. *)
Example fill_bins_example_two_bins :
  fill_bins 4 10 [6; 5; 4; 3] create_empty_bin_list =
    (0, {| l_itens := [ {| b_itens := [6; 4]; b_left := 0; b_count := 2 |};
                        {| b_itens := [5; 3]; b_left := 2; b_count := 2 |} ];
           l_count := 2 |}).
Proof. reflexivity. Qed.

(** Bins of size 5 and the numbers 5, 5, 5: three full bins. *)
Example fill_bins_example_three_bins :
  fill_bins 3 5 [5; 5; 5] create_empty_bin_list =
    (0, {| l_itens := [ {| b_itens := [5]; b_left := 0; b_count := 1 |};
                        {| b_itens := [5]; b_left := 0; b_count := 1 |};
                        {| b_itens := [5]; b_left := 0; b_count := 1 |} ];
           l_count := 3 |}).
Proof. reflexivity. Qed.

(** No number: no bin, and the initial flag is returned. *)
Example fill_bins_example_no_number :
  fill_bins 0 10 [] create_empty_bin_list = (1, create_empty_bin_list).
Proof. reflexivity. Qed.

(** ** The theorems at concrete inputs *)

(** Closes goals on concrete numbers, blocks and structures. *)
Ltac concrete :=
  repeat match goal with
  | |- is_ushort _ => unfold is_ushort; lia
  | |- Forall _ _ => repeat constructor
  | |- list_ok _ _ => constructor; simpl
  | |- bin_ok _ _ => constructor; simpl
  | |- _ ∧ _ => split
  | |- _ = _ => reflexivity
  | |- _ ≠ _ => discriminate
  | |- _ => unfold sum; simpl; lia
  end.

Lemma insert_number_bin_spec_witness :
  let b := {| b_itens := [6]; b_left := 4; b_count := 1 |} in
  b_count b = Z.of_nat (length (b_itens b)) ∧ b_count b < 65535 ∧
  is_ushort (b_left b) ∧ is_ushort 4 ∧
  insert_number_bin b 4 =
    (0, {| b_itens := [6; 4]; b_left := 0; b_count := 2 |}).
Proof.
  intros b.
  assert (H1 : b_count b = Z.of_nat (length (b_itens b))) by reflexivity.
  assert (H2 : b_count b < 65535) by (simpl; lia).
  assert (H3 : is_ushort (b_left b)) by (unfold is_ushort; simpl; lia).
  assert (H4 : is_ushort 4) by (unfold is_ushort; lia).
  split_and!; [done | done | done | done |].
  apply (proj1 (proj2 (insert_number_bin_spec b 4 H1 H2 H3 H4))).
  simpl. lia.
Defined.

Lemma fill_bins_capacity_invariant_witness :
  is_ushort 4 ∧ is_ushort 10 ∧ Forall is_ushort [6; 5; 4; 3] ∧
  (Z.to_nat 4 ≤ length [6; 5; 4; 3])%nat ∧
  ∀ b, b ∈ l_itens (fill_bins 4 10 [6; 5; 4; 3] create_empty_bin_list).2 →
    b_left b = 10 - sum (b_itens b) ∧ 0 <= b_left b ∧ sum (b_itens b) <= 10.
Proof.
  assert (H1 : is_ushort 4) by concrete.
  assert (H2 : is_ushort 10) by concrete.
  assert (H3 : Forall is_ushort [6; 5; 4; 3]) by concrete.
  assert (H4 : (Z.to_nat 4 ≤ length [6; 5; 4; 3])%nat) by (simpl; lia).
  split_and!; [done | done | done | done |].
  apply (proj1 (fill_bins_capacity_invariant 4 10 [6; 5; 4; 3] H1 H2 H3 H4)).
Defined.

Lemma fill_bins_body_is_first_fit_witness :
  let bins := {| l_itens := [ {| b_itens := [6]; b_left := 4; b_count := 1 |};
                              {| b_itens := [5]; b_left := 5; b_count := 1 |} ];
                 l_count := 2 |} in
  is_ushort 10 ∧ is_ushort 3 ∧ list_ok 10 bins ∧
  Forall (λ b, b_count b < 65535) (l_itens bins) ∧
  l_count bins <= 4 ∧ l_count bins < 65535 ∧ l_itens bins ≠ [] ∧
  l_itens (fill_bins_body 4 10 (0, bins) 3).2 !! 1%nat =
    Some {| b_itens := [5]; b_left := 5; b_count := 1 |}.
Proof.
  intros bins.
  assert (H1 : is_ushort 10) by concrete.
  assert (H2 : is_ushort 3) by concrete.
  assert (H3 : list_ok 10 bins) by concrete.
  assert (H4 : Forall (λ b, b_count b < 65535) (l_itens bins)) by concrete.
  assert (H5 : l_count bins <= 4) by concrete.
  assert (H6 : l_count bins < 65535) by concrete.
  assert (H7 : l_itens bins ≠ []) by concrete.
  split_and!; [done | done | done | done | done | done | done |].
  apply (proj1 (proj2
    (fill_bins_body_is_first_fit 4 10 0 bins 3 H1 H2 H3 H4 H5 H6 H7))
    0%nat 1%nat {| b_itens := [6]; b_left := 4; b_count := 1 |});
    concrete.
Defined.

Lemma fill_bins_at_most_n_bins_witness :
  is_ushort 3 ∧ is_ushort 5 ∧ Forall is_ushort [5; 5; 5] ∧
  (Z.to_nat 3 ≤ length [5; 5; 5])%nat ∧
  l_count (fill_bins 3 5 [5; 5; 5] create_empty_bin_list).2 <= 3.
Proof.
  assert (H1 : is_ushort 3) by concrete.
  assert (H2 : is_ushort 5) by concrete.
  assert (H3 : Forall is_ushort [5; 5; 5]) by concrete.
  assert (H4 : (Z.to_nat 3 ≤ length [5; 5; 5])%nat) by (simpl; lia).
  split_and!; [done | done | done | done |].
  apply (proj2 (fill_bins_at_most_n_bins 3 5 [5; 5; 5] H1 H2 H3 H4)).
Defined.

Lemma fill_bins_oversize_appends_empty_bin_witness :
  is_ushort 3 ∧ is_ushort 10 ∧ Forall is_ushort [3; 11; 4] ∧
  (Z.to_nat 3 ≤ length [3; 11; 4])%nat ∧ (1 < Z.to_nat 3)%nat ∧
  [3; 11; 4] !! 1%nat = Some 11 ∧ 10 < 11 ∧
  fill_bins_iter 3 10 2 [3; 11; 4] create_empty_bin_list =
    (0, {| l_itens := [ {| b_itens := [3]; b_left := 7; b_count := 1 |};
                        {| b_itens := []; b_left := 10; b_count := 0 |} ];
           l_count := 2 |}).
Proof.
  assert (H1 : is_ushort 3) by concrete.
  assert (H2 : is_ushort 10) by concrete.
  assert (H3 : Forall is_ushort [3; 11; 4]) by concrete.
  assert (H4 : (Z.to_nat 3 ≤ length [3; 11; 4])%nat) by (simpl; lia).
  assert (Hk : (1 < Z.to_nat 3)%nat) by (simpl; lia).
  assert (H5 : [3; 11; 4] !! 1%nat = Some 11) by reflexivity.
  assert (H6 : 10 < 11) by lia.
  split_and!; [done | done | done | done | done | done | done |].
  apply (proj1 (proj2
    (fill_bins_oversize_appends_empty_bin 3 10 [3; 11; 4] 1 11
       H1 H2 H3 H4 Hk H5 H6))).
Defined.

Lemma fill_bins_oversize_never_negative_witness :
  is_ushort 3 ∧ is_ushort 10 ∧ Forall is_ushort [3; 11; 4] ∧
  (Z.to_nat 3 ≤ length [3; 11; 4]%Z)%nat ∧ (1 < Z.to_nat 3)%nat ∧
  [3; 11; 4] !! 1%nat = Some 11 ∧ 10 < 11 ∧
  ∀ b, b ∈ l_itens (fill_bins 3 10 [3; 11; 4] create_empty_bin_list).2 →
    0 <= b_left b <= 10.
Proof.
  assert (H1 : is_ushort 3) by concrete.
  assert (H2 : is_ushort 10) by concrete.
  assert (H3 : Forall is_ushort [3; 11; 4]) by concrete.
  assert (H4 : (Z.to_nat 3 ≤ length [3; 11; 4]%Z)%nat) by (simpl; lia).
  assert (Hk : (1 < Z.to_nat 3)%nat) by (simpl; lia).
  assert (H5 : [3; 11; 4] !! 1%nat = Some 11) by reflexivity.
  assert (H6 : 10 < 11) by lia.
  repeat (split; [assumption |]).
  apply (proj2 (proj2 (proj2
    (fill_bins_oversize_never_negative 3 10 [3; 11; 4] 1 11
       H1 H2 H3 H4 Hk H5 H6)))).
Defined.

Lemma main_list_allocation_failure_witness :
  5 <= 5 ∧
  main 5 [3; 10; 1; 5] [4; 2; 5] (Some [0; 0; 0; 0; 0; 0]) false = Exited 0.
Proof.
  assert (H : 5 <= 5) by lia.
  split; [done |].
  apply (main_list_allocation_failure 5 [3; 10; 1; 5] [4; 2; 5]
           [0; 0; 0; 0; 0; 0] H).
Defined.

(** * More of the program *)

(** ** [insert_bin_list] *)

(** X1.  [insert_bin_list] refuses a bin only when the list holds more than
    [NUMBERS_QUANTITY] bins, and then changes nothing; otherwise, also when
    the list holds exactly [NUMBERS_QUANTITY] bins, the bin becomes the last
    one and the count grows by one. *)
Theorem insert_bin_list_spec (NQ : Z) (list : bin_list) (b : bin) :
  l_count list = Z.of_nat (length (l_itens list)) → l_count list < 65535 →
  (l_count list <= NQ →
     insert_bin_list NQ list b =
       (0, {| l_itens := l_itens list ++ [b];
              l_count := l_count list + 1 |})) ∧
  (NQ < l_count list → insert_bin_list NQ list b = (1, list)).
Proof.
  intros Hcount Hmax. split.
  - intros Hle. by apply insert_bin_list_append.
  - intros Hgt. unfold insert_bin_list.
    by destruct (Z.gtb_spec (l_count list) NQ); [| lia].
Qed.

(** ** Induction along a run *)

(** A property of the list of bins that holds of the empty list and is kept
    by a first-fit step holds after every iteration of [fill_bins]. *)
Lemma fill_bins_run_ind NQ BS values (P : nat → bin_list → Prop) :
  is_ushort NQ → is_ushort BS → Forall is_ushort values →
  (Z.to_nat NQ ≤ length values)%nat →
  P 0%nat create_empty_bin_list →
  (∀ k v bins, (k < Z.to_nat NQ)%nat → values !! k = Some v →
     is_ushort v → list_ok BS bins → P k bins →
     P (S k) (first_fit BS bins v)) →
  ∀ k, (k ≤ Z.to_nat NQ)%nat →
    P k (fill_bins_iter NQ BS k values create_empty_bin_list).2.
Proof.
  intros HNQ HBS Hvalues Hlen H0 Hstep.
  induction k as [| k IH]; intros Hk; [done |].
  destruct (lookup_lt_is_Some_2 values k) as [v Hv]; [lia |].
  rewrite (run_state_S NQ BS values) with (v := v) by (done || lia).
  apply Hstep; [lia | done | | | apply IH; lia].
  - by apply (proj1 (Forall_lookup _ _) Hvalues k).
  - by destruct (run_inv_state NQ BS values HNQ HBS Hvalues Hlen k);
      [lia |].
Qed.

(** ** What [fill_bins] returns *)

(** X2.  From the empty list [fill_bins] returns 0 as soon as there is a number
    to pack, whatever the numbers are: the refusal of [insert_bin_list] is
    never met.  It returns 1, with the list still empty, only when
    [NUMBERS_QUANTITY] is 0. *)
Theorem fill_bins_returned_flag (NQ BS : Z) (values : list Z) :
  is_ushort NQ → is_ushort BS → Forall is_ushort values →
  (Z.to_nat NQ ≤ length values)%nat →
  (NQ ≠ 0 →
     (fill_bins NQ BS values create_empty_bin_list).1 = 0 ∧
     l_itens (fill_bins NQ BS values create_empty_bin_list).2 ≠ []) ∧
  (NQ = 0 →
     fill_bins NQ BS values create_empty_bin_list
       = (1, create_empty_bin_list)).
Proof.
  intros HNQ HBS Hvalues Hlen. split.
  - intros Hne.
    destruct (run_inv_state NQ BS values HNQ HBS Hvalues Hlen (Z.to_nat NQ))
      as [_ _ _ _ Hflag _]; [lia |].
    apply Hflag. destruct HNQ. lia.
  - by intros ->.
Qed.

(** ** The numbers in the bins *)

(** X3.  After any number of iterations the bins hold, as a multiset, exactly
    the numbers read so far that are at most [BIN_SIZE]: no number is
    stored twice or changed, none is invented, and the numbers dropped are
    those above [BIN_SIZE]. *)
Theorem fill_bins_stores_fitting_numbers (NQ BS : Z) (values : list Z)
    (k : nat) :
  is_ushort NQ → is_ushort BS → Forall is_ushort values →
  (Z.to_nat NQ ≤ length values)%nat → (k ≤ Z.to_nat NQ)%nat →
  stored (fill_bins_iter NQ BS k values create_empty_bin_list).2
  ≡ₚ filter (λ v, v <= BS) (take k values).
Proof.
  intros HNQ HBS Hvalues Hlen Hk.
  by destruct (run_inv_state NQ BS values HNQ HBS Hvalues Hlen k Hk).
Qed.

Lemma run_no_empty_bin (NQ BS : Z) (values : list Z) (k : nat) :
  is_ushort NQ → is_ushort BS → Forall is_ushort values →
  (Z.to_nat NQ ≤ length values)%nat → (k ≤ Z.to_nat NQ)%nat →
  Forall (λ v, v <= BS) (numbers NQ values) →
  Forall (λ b, b_itens b ≠ [] ∧ 1 <= b_count b)
    (l_itens (fill_bins_iter NQ BS k values create_empty_bin_list).2).
Proof.
  intros HNQ HBS Hvalues Hlen Hk Hfit. revert k Hk.
  apply (fill_bins_run_ind NQ BS values
           (λ _ bins, Forall (λ b, b_itens b ≠ [] ∧ 1 <= b_count b)
                        (l_itens bins)));
    [done | done | done | done | by constructor |].
  intros k v bins Hk Hv Hvr Hok IH.
  assert (Hle : v <= BS).
  { apply (proj1 (Forall_lookup _ _) Hfit k v). unfold numbers.
    by rewrite lookup_take_lt. }
  assert (Hadd : ∀ b, b_count b = Z.of_nat (length (b_itens b)) →
            b_itens (bin_add b v) ≠ [] ∧ 1 <= b_count (bin_add b v)).
  { intros b Hc. simpl. split; [by destruct (b_itens b) | lia]. }
  unfold first_fit.
  destruct (list_find (fits v) (l_itens bins)) as [[j b] |] eqn:Hfind;
    simpl.
  - apply list_find_Some in Hfind as (Hj & _).
    apply Forall_insert; [done |]. apply Hadd.
    by destruct (proj1 (Forall_lookup _ _) (list_ok_bins _ _ Hok) j b Hj).
  - apply Forall_app. split; [done |]. apply Forall_singleton.
    rewrite new_bin_fits by (done || apply Hvr). by apply Hadd.
Qed.

(** X5.  When no number exceeds [BIN_SIZE], a bin is created only to receive a
    number: after any number of iterations no bin of the list is empty. *)
Theorem fill_bins_no_empty_bin (NQ BS : Z) (values : list Z) (k : nat) :
  is_ushort NQ → is_ushort BS → Forall is_ushort values →
  (Z.to_nat NQ ≤ length values)%nat → (k ≤ Z.to_nat NQ)%nat →
  Forall (λ v, v <= BS) (numbers NQ values) →
  Forall (λ b, b_itens b ≠ [] ∧ 1 <= b_count b)
    (l_itens (fill_bins_iter NQ BS k values create_empty_bin_list).2).
Proof. apply run_no_empty_bin. Qed.

(** ** [free_bins] after [fill_bins] *)

Lemma free_bins_defined BS bins :
  list_ok BS bins → l_itens bins ≠ [] →
  Forall (λ b, b_itens b ≠ [] ∧ 1 <= b_count b) (l_itens bins) →
  free_bins bins = Some 0.
Proof.
  intros [Hcount _] Hne Hall. unfold free_bins.
  rewrite Hcount, Nat2Z.id, firstn_all.
  assert (forallb (λ b, negb (b_count b =? 0)) (l_itens bins) = true) as ->.
  { apply forallb_forall. intros b Hb%list_elem_of_In.
    destruct (proj1 (Forall_forall _ _) Hall b Hb) as [_ Hc].
    by destruct (Z.eqb_spec (b_count b) 0); [lia |]. }
  destruct (l_itens bins); [done |]. simpl length.
  by destruct (Z.eqb_spec (Z.of_nat (S (length l))) 0); [lia |].
Qed.

(** X6.  When there is a number to pack and no number exceeds [BIN_SIZE], every
    pointer that [free_bins] frees after [fill_bins] has been set:
    [free_bins] is defined and returns 0. *)
Theorem free_bins_after_fill_bins (NQ BS : Z) (values : list Z) :
  is_ushort NQ → is_ushort BS → Forall is_ushort values →
  (Z.to_nat NQ ≤ length values)%nat → NQ ≠ 0 →
  Forall (λ v, v <= BS) (numbers NQ values) →
  free_bins (fill_bins NQ BS values create_empty_bin_list).2 = Some 0.
Proof.
  intros HNQ HBS Hvalues Hlen Hne Hfit.
  destruct (run_inv_state NQ BS values HNQ HBS Hvalues Hlen (Z.to_nat NQ))
    as [Hok _ _ _ Hflag _]; [lia |].
  apply (free_bins_defined BS); [done | |].
  - apply Hflag. destruct HNQ. lia.
  - by apply run_no_empty_bin.
Qed.

Lemma run_state_oversize NQ BS values k v :
  is_ushort NQ → is_ushort BS → Forall is_ushort values →
  (Z.to_nat NQ ≤ length values)%nat →
  (k < Z.to_nat NQ)%nat → values !! k = Some v → BS < v →
  (fill_bins_iter NQ BS (S k) values create_empty_bin_list).2 =
    {| l_itens :=
         l_itens (fill_bins_iter NQ BS k values create_empty_bin_list).2
         ++ [create_empty_bin BS];
       l_count :=
         l_count (fill_bins_iter NQ BS k values create_empty_bin_list).2
         + 1 |}.
Proof.
  intros HNQ HBS Hvalues Hlen Hk Hv Hgt.
  rewrite (run_state_S NQ BS values) with (v := v) by done.
  destruct (run_inv_state NQ BS values HNQ HBS Hvalues Hlen k)
    as [[_ Hbins] _ _ _ _ _]; [lia |].
  simpl. unfold first_fit.
  assert (list_find (fits v)
            (l_itens (fill_bins_iter NQ BS k values create_empty_bin_list).2)
          = None) as ->.
  { apply list_find_None. eapply Forall_impl; [done |].
    intros b Hb%bin_ok_left_le. unfold fits. lia. }
  by rewrite new_bin_oversize.
Qed.

(** X7.  When the last number packed exceeds [BIN_SIZE], the bin appended for
    it stays empty, its pointer to the items is never set, and [free_bins]
    frees that pointer: the call has no defined behaviour. *)
Theorem free_bins_after_oversize_last (NQ BS : Z) (values : list Z) (v : Z) :
  is_ushort NQ → is_ushort BS → Forall is_ushort values →
  (Z.to_nat NQ ≤ length values)%nat → NQ ≠ 0 →
  values !! (Z.to_nat NQ - 1)%nat = Some v → BS < v →
  free_bins (fill_bins NQ BS values create_empty_bin_list).2 = None.
Proof.
  intros HNQ HBS Hvalues Hlen Hne Hv Hgt.
  assert (HS : Z.to_nat NQ = S (Z.to_nat NQ - 1)) by (destruct HNQ; lia).
  destruct (run_inv_state NQ BS values HNQ HBS Hvalues Hlen
              (Z.to_nat NQ - 1)) as [[Hcount _] _ _ _ _ _]; [lia |].
  unfold fill_bins. rewrite HS.
  rewrite (run_state_oversize NQ BS values _ v) by (done || lia).
  unfold free_bins. simpl.
  rewrite Hcount.
  replace (Z.to_nat (Z.of_nat _ + 1)) with
    (length (l_itens (fill_bins_iter NQ BS (Z.to_nat NQ - 1) values
                        create_empty_bin_list).2 ++ [create_empty_bin BS]))
    by (rewrite length_app; simpl; lia).
  rewrite firstn_all, forallb_app. simpl.
  by rewrite !andb_false_r.
Qed.

(** ** Order and growth of the items *)

(** X8.  The items of a bin are numbers of the input in the order in which
    they were read: after [k] iterations the block of items of every bin is
    a sublist of the first [k] numbers. *)
Theorem fill_bins_items_in_arrival_order (NQ BS : Z) (values : list Z)
    (k : nat) :
  is_ushort NQ → is_ushort BS → Forall is_ushort values →
  (Z.to_nat NQ ≤ length values)%nat → (k ≤ Z.to_nat NQ)%nat →
  Forall (λ b, b_itens b `sublist_of` take k values)
    (l_itens (fill_bins_iter NQ BS k values create_empty_bin_list).2).
Proof.
  intros HNQ HBS Hvalues Hlen Hk. revert k Hk.
  apply (fill_bins_run_ind NQ BS values
           (λ k bins, Forall (λ b, b_itens b `sublist_of` take k values)
                        (l_itens bins)));
    [done | done | done | done | by constructor |].
  intros k v bins Hk Hv Hvr Hok IH.
  rewrite (take_S_r _ _ _ Hv).
  assert (IH' : Forall (λ b, b_itens b `sublist_of` take k values ++ [v])
                  (l_itens bins)).
  { eapply Forall_impl; [done |]. intros b Hb. by apply sublist_inserts_r. }
  unfold first_fit.
  destruct (list_find (fits v) (l_itens bins)) as [[j b] |] eqn:Hfind; simpl.
  - apply list_find_Some in Hfind as (Hj & _).
    apply Forall_insert; [done |]. simpl.
    apply sublist_app; [| done].
    by apply (proj1 (Forall_lookup _ _) IH j b).
  - apply Forall_app. split; [done |]. apply Forall_singleton.
    apply sublist_inserts_l. unfold new_bin, insert_number_bin. simpl.
    destruct (v <=? BS); simpl; [done | apply sublist_nil_l].
Qed.

Lemma first_fit_items_prefix BS bins num j b :
  l_itens bins !! j = Some b →
  ∃ b', l_itens (first_fit BS bins num) !! j = Some b' ∧
        b_itens b `prefix_of` b_itens b'.
Proof.
  intros Hj. unfold first_fit.
  destruct (list_find (fits num) (l_itens bins)) as [[i bi] |] eqn:Hfind;
    simpl.
  - apply list_find_Some in Hfind as (Hi & _).
    destruct (decide (i = j)) as [-> | Hne].
    + exists (bin_add bi num). split.
      * apply list_lookup_insert_eq. by eapply lookup_lt_Some.
      * simplify_eq. simpl. by apply prefix_app_r.
    + exists b. split; [by rewrite list_lookup_insert_ne | done].
  - exists b. split; [by apply lookup_app_l_Some | done].
Qed.

(** X9.  Bins are never removed or reordered and their items are only appended
    to: a bin found at an index at one point of the run is found at the
    same index at every later point, with its items as a prefix of the
    items it has then. *)
Theorem fill_bins_append_only (NQ BS : Z) (values : list Z)
    (k k' j : nat) (b : bin) :
  is_ushort NQ → is_ushort BS → Forall is_ushort values →
  (Z.to_nat NQ ≤ length values)%nat →
  (k ≤ k' ≤ Z.to_nat NQ)%nat →
  l_itens (fill_bins_iter NQ BS k values create_empty_bin_list).2 !! j
    = Some b →
  ∃ b',
    l_itens (fill_bins_iter NQ BS k' values create_empty_bin_list).2 !! j
      = Some b' ∧
    b_itens b `prefix_of` b_itens b'.
Proof.
  intros HNQ HBS Hvalues Hlen [Hk Hk'] Hj.
  induction Hk as [| k' Hk IH].
  - by exists b.
  - destruct IH as (b1 & Hb1 & Hpre); [lia |].
    destruct (lookup_lt_is_Some_2 values k') as [v Hv]; [lia |].
    rewrite (run_state_S NQ BS values) with (v := v) by (done || lia).
    destruct (first_fit_items_prefix BS
                (fill_bins_iter NQ BS k' values create_empty_bin_list).2
                v j b1 Hb1) as (b2 & Hb2 & Hpre2).
    exists b2. split; [done | by etrans].
Qed.

(** ** No two bins that one bin could hold *)

Lemma new_bin_head BS num x :
  head (b_itens (new_bin BS num)) = Some x → x = num.
Proof.
  unfold new_bin, insert_number_bin. simpl.
  destruct (num <=? BS); simpl; [| done]. by intros [= ->].
Qed.

Lemma first_fit_opened_by_need BS bins v :
  0 <= v → opened_by_need (l_itens bins) →
  opened_by_need (l_itens (first_fit BS bins v)).
Proof.
  intros Hv Hinv. unfold first_fit.
  destruct (list_find (fits v) (l_itens bins)) as [[f bf] |] eqn:Hfind;
    simpl.
  - apply list_find_Some in Hfind as (Hf & Hfit & Hfirst).
    pose proof (lookup_lt_Some _ _ _ Hf) as Hlt.
    intros i j bi bj x Hij Hi Hj Hx.
    destruct (decide (j = f)) as [-> | Hjf].
    + rewrite list_lookup_insert_eq in Hj by done.
      rewrite list_lookup_insert_ne in Hi by lia. simplify_eq. simpl in Hx.
      destruct (b_itens bf) as [| y l] eqn:Hitens; simpl in Hx.
      * simplify_eq. pose proof (Hfirst i bi Hi Hij) as Hno.
        unfold fits in Hno. lia.
      * simplify_eq. apply (Hinv i f bi bf); [done | done | done |].
        by rewrite Hitens.
    + rewrite list_lookup_insert_ne in Hj by done.
      destruct (decide (i = f)) as [-> | Hif].
      * rewrite list_lookup_insert_eq in Hi by done. simplify_eq. simpl.
        pose proof (Hinv f j bf bj x Hij Hf Hj Hx). lia.
      * rewrite list_lookup_insert_ne in Hi by done.
        by apply (Hinv i j bi bj).
  - apply list_find_None in Hfind.
    intros i j bi bj x Hij Hi Hj Hx.
    pose proof (lookup_lt_Some _ _ _ Hj) as Hlt.
    rewrite length_app in Hlt. simpl in Hlt.
    rewrite lookup_app_l in Hi by lia.
    destruct (decide (j < length (l_itens bins))%nat) as [Hjl | Hjl].
    + rewrite lookup_app_l in Hj by done. by apply (Hinv i j bi bj).
    + rewrite lookup_app_r in Hj by lia.
      replace (j - length (l_itens bins))%nat with 0%nat in Hj by lia.
      simpl in Hj. simplify_eq. apply new_bin_head in Hx as ->.
      pose proof (proj1 (Forall_lookup _ _) Hfind i bi Hi) as Hno.
      unfold fits in Hno. lia.
Qed.

Lemma run_opened_by_need NQ BS values k :
  is_ushort NQ → is_ushort BS → Forall is_ushort values →
  (Z.to_nat NQ ≤ length values)%nat → (k ≤ Z.to_nat NQ)%nat →
  opened_by_need
    (l_itens (fill_bins_iter NQ BS k values create_empty_bin_list).2).
Proof.
  intros HNQ HBS Hvalues Hlen. revert k.
  apply (fill_bins_run_ind NQ BS values
           (λ _ bins, opened_by_need (l_itens bins)));
    [done | done | done | done | |].
  - by intros i j bi bj x _ Hi.
  - intros k v bins _ _ [Hv _] _ IH. by apply first_fit_opened_by_need.
Qed.

Lemma head_le_sum l x :
  Forall is_ushort l → head l = Some x → x <= sum l.
Proof.
  intros Hl Hx. destruct l as [| y l]; simplify_eq/=.
  apply Forall_cons in Hl as [_ Hl]. pose proof (sum_nonneg _ Hl).
  unfold sum in *. simpl. lia.
Qed.

(** X10.  First fit, whatever the order of the numbers: of two bins of the list,
    the later one not empty, the first number of the later bin did not fit
    into the earlier bin as it is now, so that the two bins together hold
    more than [BIN_SIZE]; no two bins that hold numbers could be merged
    into one. *)
Theorem fill_bins_no_two_bins_mergeable (NQ BS : Z) (values : list Z)
    (k i j : nat) (bi bj : bin) :
  is_ushort NQ → is_ushort BS → Forall is_ushort values →
  (Z.to_nat NQ ≤ length values)%nat → (k ≤ Z.to_nat NQ)%nat →
  let bins :=
    l_itens (fill_bins_iter NQ BS k values create_empty_bin_list).2 in
  (i < j)%nat → bins !! i = Some bi → bins !! j = Some bj →
  b_itens bj ≠ [] →
  (∃ x, head (b_itens bj) = Some x ∧ b_left bi < x) ∧
  BS < sum (b_itens bi) + sum (b_itens bj).
Proof.
  intros HNQ HBS Hvalues Hlen Hk bins Hij Hi Hj Hne.
  destruct (run_inv_state NQ BS values HNQ HBS Hvalues Hlen k Hk)
    as [[_ Hbins] _ _ _ _ _]. fold bins in Hbins.
  pose proof (run_opened_by_need NQ BS values k HNQ HBS Hvalues Hlen Hk)
    as Hinv. fold bins in Hinv.
  destruct (b_itens bj) as [| x l] eqn:Hitens; [done |].
  assert (Hx : head (b_itens bj) = Some x) by (by rewrite Hitens).
  pose proof (Hinv i j bi bj x Hij Hi Hj Hx) as Hlt.
  destruct (proj1 (Forall_lookup _ _) Hbins i bi Hi) as [_ _ Hli _].
  destruct (proj1 (Forall_lookup _ _) Hbins j bj Hj) as [_ Hitj _ _].
  pose proof (head_le_sum _ x Hitj Hx) as Hle.
  rewrite Hitens in Hle. split; [by exists x |]. lia.
Qed.

(** ** How many bins *)

Lemma sum_perm l1 l2 : l1 ≡ₚ l2 → sum l1 = sum l2.
Proof.
  unfold sum. induction 1; simpl; lia.
Qed.

Lemma sum_bins_le BS (l : list bin) :
  Forall (bin_ok BS) l →
  0 <= sum (concat (b_itens <$> l)) <= Z.of_nat (length l) * BS.
Proof.
  induction 1 as [| b l Hb _ IH]; [done |].
  rewrite fmap_cons, concat_cons, sum_app.
  pose proof (bin_ok_left_le _ _ Hb). destruct Hb as [_ Hit Hl Hn].
  pose proof (sum_nonneg _ Hit). simpl length. lia.
Qed.

Lemma opened_by_need_tail b l :
  opened_by_need (b :: l) → opened_by_need l.
Proof.
  intros H i j bi bj x Hij Hi Hj Hx.
  apply (H (S i) (S j) bi bj x); [lia | done | done | done].
Qed.

Lemma sum_pairs_lower BS (n : nat) : ∀ l : list bin,
  (length l ≤ n)%nat → opened_by_need l → Forall (bin_ok BS) l →
  Forall (λ b, b_itens b ≠ []) l →
  Z.of_nat (length l / 2) * (BS + 1) <= sum (concat (b_itens <$> l)).
Proof.
  induction n as [| n IH]; intros l Hn Hinv Hok Hne.
  - destruct l; [done | simpl in Hn; lia].
  - destruct l as [| b0 [| b1 l]].
    + done.
    + pose proof (sum_bins_le BS _ Hok). simpl length in *.
      change (1 / 2)%nat with 0%nat. lia.
    + apply Forall_cons in Hok as [Hok0 Hok], Hne as [_ Hne].
      apply Forall_cons in Hok as [Hok1 Hok], Hne as [Hne1 Hne].
      assert (Hpair : BS < sum (b_itens b0) + sum (b_itens b1)).
      { destruct (b_itens b1) as [| x l1] eqn:Hitens; [done |].
        assert (Hx : head (b_itens b1) = Some x) by (by rewrite Hitens).
        pose proof (Hinv 0%nat 1%nat b0 b1 x ltac:(lia) eq_refl eq_refl Hx).
        destruct Hok0 as [_ _ Hl0 _], Hok1 as [_ Hit1 _ _].
        pose proof (head_le_sum _ x Hit1 Hx) as Hle.
        rewrite Hitens in Hle. lia. }
      specialize (IH l).
      rewrite !fmap_cons, !concat_cons, !sum_app.
      simpl length in *.
      replace (S (S (length l))) with (1 * 2 + length l)%nat by lia.
      rewrite Nat.div_add_l by done.
      assert (Z.of_nat (length l / 2) * (BS + 1)
              <= sum (concat (b_itens <$> l))).
      { apply IH; [lia | | done | done].
        by do 2 apply opened_by_need_tail in Hinv. }
      lia.
Qed.

(** X11.  When no number exceeds [BIN_SIZE], the number [m] of bins that
    [fill_bins] returns is tied to the sum of the numbers packed, whatever
    their order: the sum is at most [m * BIN_SIZE], and it is at least
    [(m / 2) * (BIN_SIZE + 1)], since the bins taken two by two hold more
    than [BIN_SIZE] each pair. *)
Theorem fill_bins_number_of_bins (NQ BS : Z) (values : list Z) :
  is_ushort NQ → is_ushort BS → Forall is_ushort values →
  (Z.to_nat NQ ≤ length values)%nat →
  Forall (λ v, v <= BS) (numbers NQ values) →
  let m := length (l_itens (fill_bins NQ BS values create_empty_bin_list).2) in
  sum (numbers NQ values) <= Z.of_nat m * BS ∧
  Z.of_nat (m / 2) * (BS + 1) <= sum (numbers NQ values).
Proof.
  intros HNQ HBS Hvalues Hlen Hfit m.
  assert (Hall : filter (λ v, v <= BS) (numbers NQ values)
                 = numbers NQ values).
  { clear -Hfit. induction Hfit as [| v l Hv _ IH]; [done |].
    by rewrite filter_cons, decide_True, IH. }
  rewrite <- Hall.
  rewrite <- (sum_perm _ _
    (fill_bins_stored NQ BS values HNQ HBS Hvalues Hlen)).
  destruct (run_inv_state NQ BS values HNQ HBS Hvalues Hlen (Z.to_nat NQ))
    as [[_ Hbins] _ _ _ _ _]; [lia |].
  split.
  - apply (sum_bins_le BS), Hbins.
  - apply (sum_pairs_lower BS m); [done | | done |].
    + apply run_opened_by_need; done || lia.
    + eapply Forall_impl;
        [apply (run_no_empty_bin NQ BS values (Z.to_nat NQ));
           done || lia |].
      by intros b [? _].
Qed.

(** ** [print_numbers] *)

Lemma total_mod_sum l a :
  foldl (λ total v, ushort (total + v)) (ushort a) l = ushort (a + sum l).
Proof.
  revert a. induction l as [| x l IH]; intros a; simpl.
  - unfold sum. simpl. by rewrite Z.add_0_r.
  - replace (ushort (ushort a + x)) with (ushort (a + x))
      by (unfold ushort; by rewrite Zplus_mod_idemp_l).
    rewrite IH. unfold sum. simpl. f_equal. lia.
Qed.

(** X12.  With at least one number, [print_numbers] is defined; what it prints
    as total is the count of the numbers, and what it prints as average is
    the sum of the numbers reduced modulo 2^16 (the total is kept in an
    [unsigned short]) divided by the count: the true average exactly when
    the sum is below 65536. *)
Theorem print_numbers_report (NQ : Z) (values : list Z) :
  0 < NQ → Forall is_ushort values →
  print_numbers NQ values =
    Some (numbers NQ values, NQ, (sum (numbers NQ values) mod 65536) / NQ) ∧
  (sum (numbers NQ values) < 65536 →
   print_numbers NQ values =
     Some (numbers NQ values, NQ, sum (numbers NQ values) / NQ)).
Proof.
  intros HNQ Hvalues.
  assert (Hrep : print_numbers NQ values =
    Some (numbers NQ values, NQ, (sum (numbers NQ values) mod 65536) / NQ)).
  { unfold print_numbers, c_div.
    destruct (Z.eqb_spec NQ 0) as [| _]; [lia |].
    change 0 with (ushort 0) at 1. rewrite total_mod_sum. simpl.
    unfold ushort. rewrite Z.quot_div_nonneg; [done | | lia].
    apply Z.mod_pos_bound. lia. }
  split; [done |]. intros Hlt. rewrite Hrep.
  rewrite Z.mod_small; [done |]. split; [| done].
  apply sum_nonneg. unfold numbers. by apply Forall_take.
Qed.

(** ** [comparison_numbers] *)

(** X13.  On two numbers between 0 and [INT_MAX] the difference does not
    overflow and its sign orders them in descending order: negative when
    the first is the greater, zero when they are equal, positive when the
    first is the smaller. *)
Theorem comparison_numbers_sign (a b : Z) :
  small a → small b →
  (comparison_numbers a b < 0 ↔ b < a) ∧
  (comparison_numbers a b = 0 ↔ a = b) ∧
  (0 < comparison_numbers a b ↔ a < b).
Proof.
  unfold small, comparison_numbers, int32. intros Ha Hb.
  assert ((b - a + 2147483648) mod 4294967296 = b - a + 2147483648) as ->
    by (apply Z.mod_small; lia).
  lia.
Qed.

(** X14.  Read through [int*] on the block of [unsigned short] cells, the
    comparison orders two pairs of cells by their second cells first, and
    by their first cells when the second cells are equal (second cells
    below 2^15, so that the [int] values are not negative). *)
Theorem comparison_numbers_on_cells (lo1 hi1 lo2 hi2 : Z) :
  is_ushort lo1 → is_ushort lo2 → 0 <= hi1 < 32768 → 0 <= hi2 < 32768 →
  (comparison_numbers (int_of_cells lo1 hi1) (int_of_cells lo2 hi2) <= 0
   ↔ hi2 < hi1 ∨ (hi2 = hi1 ∧ lo2 <= lo1)).
Proof.
  unfold is_ushort. intros Hlo1 Hlo2 Hhi1 Hhi2.
  assert (Hint : ∀ lo hi, 0 <= lo <= 65535 → 0 <= hi < 32768 →
            int_of_cells lo hi = lo + 65536 * hi).
  { intros lo hi Hlo Hhi. unfold int_of_cells, int32.
    rewrite Z.mod_small; lia. }
  rewrite !Hint by done.
  assert (Hs : ∀ lo hi, 0 <= lo <= 65535 → 0 <= hi < 32768 →
            small (lo + 65536 * hi)) by (unfold small; lia).
  rewrite comparison_numbers_le by (by apply Hs). lia.
Qed.

(** ** [sort_numbers_array] keeps the cells *)

Lemma cells_of_int_of_cells lo hi :
  is_ushort lo → is_ushort hi → cells_of_int (int_of_cells lo hi) = [lo; hi].
Proof.
  unfold is_ushort, cells_of_int, int_of_cells, int32. intros Hlo Hhi.
  f_equal; [| f_equal]; Z.div_mod_to_equations; lia.
Qed.

Lemma block_of_ints_of_block (n : nat) : ∀ cells,
  length cells = (2 * n)%nat → Forall is_ushort cells →
  block_of_ints (ints_of_block cells) = cells.
Proof.
  unfold block_of_ints.
  induction n as [| n IH]; intros cells Hlen Hcells.
  - by destruct cells.
  - destruct cells as [| lo [| hi cells]]; [done | simpl in Hlen; lia |].
    apply Forall_cons in Hcells as [Hlo Hcells].
    apply Forall_cons in Hcells as [Hhi Hcells].
    cbn [ints_of_block map concat].
    rewrite cells_of_int_of_cells, IH; [done | simpl in Hlen; lia | ..];
      done.
Qed.

Lemma block_of_ints_perm l1 l2 :
  l1 ≡ₚ l2 → block_of_ints l1 ≡ₚ block_of_ints l2.
Proof.
  unfold block_of_ints.
  induction 1 as [| x l1 l2 _ IH | x y l | l1 l2 l3 _ IH1 _ IH2];
    cbn [map concat].
  - done.
  - by apply Permutation_app_head.
  - rewrite !(assoc_L (++)).
    apply Permutation_app_tail, Permutation_app_comm.
  - by etrans.
Qed.

Lemma sort_numbers_array_cells (NQ : Z) (values : list Z) :
  Forall is_ushort values → (2 * Z.to_nat NQ ≤ length values)%nat →
  sort_numbers_array NQ values ≡ₚ values ∧
  length (sort_numbers_array NQ values) = length values ∧
  Forall is_ushort (sort_numbers_array NQ values).
Proof.
  intros Hvalues Hlen.
  assert (Hperm : sort_numbers_array NQ values ≡ₚ values).
  { unfold sort_numbers_array.
    rewrite (block_of_ints_perm _ _ (qsort_perm _ _)).
    rewrite (block_of_ints_of_block (Z.to_nat NQ)).
    - by rewrite take_drop.
    - rewrite length_take. lia.
    - by apply Forall_take. }
  split_and!; [done | by rewrite Hperm | by rewrite Hperm].
Qed.

(** X15.  On a block of [unsigned short] cells that has two cells for each
    number the sort moves cells but neither adds, loses nor changes one:
    the block after the sort is a permutation of the block before, cell
    for cell, and so has the same length and only [unsigned short]
    values.  (The numbers themselves, the first [NUMBERS_QUANTITY] cells,
    may be exchanged with the cells after them.) *)
Theorem sort_numbers_array_permutes_cells (NQ : Z) (values : list Z) :
  Forall is_ushort values → (2 * Z.to_nat NQ ≤ length values)%nat →
  sort_numbers_array NQ values ≡ₚ values ∧
  length (sort_numbers_array NQ values) = length values ∧
  Forall is_ushort (sort_numbers_array NQ values).
Proof. apply sort_numbers_array_cells. Qed.

(** ** The generated numbers *)

Lemma generate_random_number_offset r min max :
  is_ushort min → is_ushort max → min <= max → 0 <= r <= RAND_MAX →
  generate_random_number r min max
    = Some (min + r * (max - min + 1) / 2147483648) ∧
  0 <= r * (max - min + 1) / 2147483648 <= max - min.
Proof.
  unfold is_ushort, RAND_MAX. intros Hmin Hmax Hle Hr.
  assert (Hk : 0 <= r * (max - min + 1) / 2147483648 <= max - min).
  { split; [apply Z.div_pos; nia |].
    apply Z.lt_succ_r, Z.div_lt_upper_bound; nia. }
  split; [| done]. unfold generate_random_number, RAND_MAX.
  change (2147483647 + 1) with 2147483648.
  rewrite Z.quot_div_nonneg by nia.
  destruct (Z.leb_spec 0 (r * (max - min + 1) / 2147483648)); [| lia].
  by destruct (Z.leb_spec (r * (max - min + 1) / 2147483648) 65535);
    [| lia].
Qed.

(** X17.  For [min <= max], whatever [rand()] returns, [generate_random_number]
    is defined and returns a number of the closed interval from [min] to
    [max]; it returns [min] when [rand()] returns 0 and [max] when [rand()]
    returns [RAND_MAX]. *)
Theorem generate_random_number_in_range (r min max : Z) :
  is_ushort min → is_ushort max → min <= max → 0 <= r <= RAND_MAX →
  (∃ x, generate_random_number r min max = Some x ∧ min <= x <= max) ∧
  generate_random_number 0 min max = Some min ∧
  generate_random_number RAND_MAX min max = Some max.
Proof.
  intros Hmin Hmax Hle Hr.
  destruct (generate_random_number_offset r min max) as [Hgen Hk];
    [done .. |].
  split_and!.
  - eexists. split; [done | lia].
  - destruct (generate_random_number_offset 0 min max) as [-> _];
      [done | done | done | unfold RAND_MAX; lia |].
    f_equal. rewrite Z.mul_0_l, Z.div_0_l; lia.
  - destruct (generate_random_number_offset RAND_MAX min max) as [-> _];
      [done | done | done | unfold RAND_MAX; lia |].
    f_equal. unfold is_ushort, RAND_MAX in *.
    assert (2147483647 * (max - min + 1) / 2147483648 = max - min);
      [| lia].
    symmetry. apply Z.div_unique with (2147483648 - (max - min + 1)); lia.
Qed.

(** X18.  For [NUMBERS_MINIMUM <= NUMBERS_MAXIMUM], [create_numbers_array] is
    defined, writes exactly the first [NUMBERS_QUANTITY] cells of the
    block, and every number it writes lies between [NUMBERS_MINIMUM] and
    [NUMBERS_MAXIMUM]. *)
Theorem create_numbers_array_in_range (NQ MIN MAX : Z)
    (rands values : list Z) :
  is_ushort MIN → is_ushort MAX → MIN <= MAX →
  Forall (λ r, 0 <= r <= RAND_MAX) rands →
  (Z.to_nat NQ ≤ length rands)%nat → (Z.to_nat NQ ≤ length values)%nat →
  ∃ out, create_numbers_array NQ MIN MAX rands values = Some out ∧
         length out = length values ∧
         Forall (λ x, MIN <= x <= MAX) (numbers NQ out) ∧
         drop (Z.to_nat NQ) out = drop (Z.to_nat NQ) values.
Proof.
  intros HMIN HMAX Hle Hrands Hlr Hlv.
  unfold create_numbers_array, numbers.
  set (n := Z.to_nat NQ) in *.
  set (f := λ r, ushort <$> generate_random_number r MIN MAX).
  assert (Hf : ∀ r, 0 <= r <= RAND_MAX →
            ∃ x, f r = Some x ∧ MIN <= x <= MAX).
  { intros r Hr.
    destruct (generate_random_number_offset r MIN MAX) as [Hgen Hk];
      [done .. |].
    unfold f. rewrite Hgen. simpl. eexists. split; [done |].
    rewrite ushort_id; unfold is_ushort in *; lia. }
  assert (Hw : ∃ written, mapM f (take n rands) = Some written ∧
                 length written = n ∧
                 Forall (λ x, MIN <= x <= MAX) written).
  { assert (Hn : length (take n rands) = n) by (rewrite length_take; lia).
    assert (Ht : Forall (λ r, 0 <= r <= RAND_MAX) (take n rands))
      by (by apply Forall_take).
    clear Hlr Hrands Hlv. revert Hn Ht. generalize (take n rands) as l.
    clearbody n. induction n as [| n IH]; intros l Hn Ht.
    - destruct l; [| done]. by exists [].
    - destruct l as [| r l]; [done |].
      apply Forall_cons in Ht as [Hr Ht].
      destruct (Hf r Hr) as (x & Hx & Hxr).
      destruct (IH l) as (w & Hw & Hlw & Hwr); [by simplify_eq/= | done |].
      exists (x :: w). split_and!.
      + rewrite mapM_Some. constructor; [done |]. by apply mapM_Some.
      + simpl. by rewrite Hlw.
      + by constructor. }
  destruct Hw as (written & -> & Hlw & Hwr). simpl.
  eexists. split_and!; [done | | |].
  - rewrite length_app, length_drop. lia.
  - rewrite take_app_length'; done.
  - rewrite drop_app_length'; [| done]. by rewrite Hlw.
Qed.

(** ** The sort, then the packing *)


(** ** [main] and the block of the numbers *)

(** X20.  The test of the pointer to the numbers comes after the numbers are
    written.  With numbers on the command line and a failed [malloc], the
    first number is written through [NULL] and the run has no defined
    behaviour; the [exit(1)] of that test is reached only when there is no
    number to write, that is with four arguments and a quantity of 0. *)
Theorem main_values_allocation_failure (argc : Z)
    (argv generated : list Z) (list_allocated : bool) :
  5 <= argc → (Z.to_nat argc - 1 ≤ length argv)%nat →
  (5 < argc →
     main argc argv generated None list_allocated = Undefined) ∧
  (argc = 5 → ushort (argv !!! 0%nat) = 0 →
     main argc argv generated None list_allocated = Exited 1).
Proof.
  intros Hargc Hargv. unfold main.
  destruct (Z.ltb_spec argc 5); [lia |]. split.
  - intros Hgt. destruct (Z.gtb_spec argc 5); [| lia].
    destruct (drop 4 argv) eqn:Hdrop; [| done].
    apply (f_equal length) in Hdrop. rewrite length_drop in Hdrop.
    simpl in Hdrop. lia.
  - intros -> Hq. simpl. by rewrite Hq.
Qed.

(** ** The further theorems at concrete inputs *)

Lemma insert_bin_list_spec_witness :
  let list := {| l_itens := [ {| b_itens := [6]; b_left := 4; b_count := 1 |};
                              {| b_itens := [5]; b_left := 5; b_count := 1 |} ];
                 l_count := 2 |} in
  let b := {| b_itens := [9]; b_left := 1; b_count := 1 |} in
  l_count list = Z.of_nat (length (l_itens list)) ∧ l_count list < 65535 ∧
  l_count list <= 2 ∧
  insert_bin_list 2 list b
    = (0, {| l_itens := l_itens list ++ [b]; l_count := 3 |}).
Proof.
  intros list b.
  assert (H1 : l_count list = Z.of_nat (length (l_itens list)))
    by reflexivity.
  assert (H2 : l_count list < 65535) by concrete.
  assert (H3 : l_count list <= 2) by concrete.
  repeat (split; [assumption |]).
  apply (proj1 (insert_bin_list_spec 2 list b H1 H2) H3).
Defined.

Lemma fill_bins_returned_flag_witness :
  is_ushort 4 ∧ is_ushort 10 ∧ Forall is_ushort [6; 5; 4; 3] ∧
  (Z.to_nat 4 ≤ length [6; 5; 4; 3]%Z)%nat ∧ 4 ≠ 0 ∧
  (fill_bins 4 10 [6; 5; 4; 3] create_empty_bin_list).1 = 0.
Proof.
  assert (H1 : is_ushort 4) by concrete.
  assert (H2 : is_ushort 10) by concrete.
  assert (H3 : Forall is_ushort [6; 5; 4; 3]) by concrete.
  assert (H4 : (Z.to_nat 4 ≤ length [6; 5; 4; 3]%Z)%nat) by (simpl; lia).
  assert (H5 : 4 ≠ 0) by lia.
  repeat (split; [assumption |]).
  apply (proj1 (fill_bins_returned_flag 4 10 [6; 5; 4; 3] H1 H2 H3 H4) H5).
Defined.

Lemma fill_bins_stores_fitting_numbers_witness :
  is_ushort 3 ∧ is_ushort 10 ∧ Forall is_ushort [3; 11; 4] ∧
  (Z.to_nat 3 ≤ length [3; 11; 4]%Z)%nat ∧ (3 ≤ Z.to_nat 3)%nat ∧
  stored (fill_bins_iter 3 10 3 [3; 11; 4] create_empty_bin_list).2
  ≡ₚ [3; 4].
Proof.
  assert (H1 : is_ushort 3) by concrete.
  assert (H2 : is_ushort 10) by concrete.
  assert (H3 : Forall is_ushort [3; 11; 4]) by concrete.
  assert (H4 : (Z.to_nat 3 ≤ length [3; 11; 4]%Z)%nat) by (simpl; lia).
  assert (H5 : (3 ≤ Z.to_nat 3)%nat) by (simpl; lia).
  repeat (split; [assumption |]).
  apply (fill_bins_stores_fitting_numbers 3 10 [3; 11; 4] 3 H1 H2 H3 H4 H5).
Defined.

Lemma fill_bins_conservation_fitting_witness :
  is_ushort 4 ∧ is_ushort 10 ∧ Forall is_ushort [6; 5; 4; 3] ∧
  (Z.to_nat 4 ≤ length [6; 5; 4; 3]%Z)%nat ∧
  Forall (λ v, v <= 10) (numbers 4 [6; 5; 4; 3]) ∧
  stored (fill_bins 4 10 [6; 5; 4; 3] create_empty_bin_list).2
  ≡ₚ [6; 5; 4; 3].
Proof.
  assert (H1 : is_ushort 4) by concrete.
  assert (H2 : is_ushort 10) by concrete.
  assert (H3 : Forall is_ushort [6; 5; 4; 3]) by concrete.
  assert (H4 : (Z.to_nat 4 ≤ length [6; 5; 4; 3]%Z)%nat) by (simpl; lia).
  assert (H5 : Forall (λ v, v <= 10) (numbers 4 [6; 5; 4; 3])) by concrete.
  repeat (split; [assumption |]).
  apply (fill_bins_conservation_fitting 4 10 [6; 5; 4; 3] H1 H2 H3 H4 H5).
Defined.

Lemma fill_bins_no_empty_bin_witness :
  is_ushort 4 ∧ is_ushort 10 ∧ Forall is_ushort [6; 5; 4; 3] ∧
  (Z.to_nat 4 ≤ length [6; 5; 4; 3]%Z)%nat ∧ (4 ≤ Z.to_nat 4)%nat ∧
  Forall (λ v, v <= 10) (numbers 4 [6; 5; 4; 3]) ∧
  Forall (λ b, b_itens b ≠ [] ∧ 1 <= b_count b)
    (l_itens (fill_bins_iter 4 10 4 [6; 5; 4; 3] create_empty_bin_list).2).
Proof.
  assert (H1 : is_ushort 4) by concrete.
  assert (H2 : is_ushort 10) by concrete.
  assert (H3 : Forall is_ushort [6; 5; 4; 3]) by concrete.
  assert (H4 : (Z.to_nat 4 ≤ length [6; 5; 4; 3]%Z)%nat) by (simpl; lia).
  assert (H5 : (4 ≤ Z.to_nat 4)%nat) by (simpl; lia).
  assert (H6 : Forall (λ v, v <= 10) (numbers 4 [6; 5; 4; 3])) by concrete.
  repeat (split; [assumption |]).
  apply (fill_bins_no_empty_bin 4 10 [6; 5; 4; 3] 4 H1 H2 H3 H4 H5 H6).
Defined.

Lemma free_bins_after_fill_bins_witness :
  is_ushort 4 ∧ is_ushort 10 ∧ Forall is_ushort [6; 5; 4; 3] ∧
  (Z.to_nat 4 ≤ length [6; 5; 4; 3]%Z)%nat ∧ 4 ≠ 0 ∧
  Forall (λ v, v <= 10) (numbers 4 [6; 5; 4; 3]) ∧
  free_bins (fill_bins 4 10 [6; 5; 4; 3] create_empty_bin_list).2 = Some 0.
Proof.
  assert (H1 : is_ushort 4) by concrete.
  assert (H2 : is_ushort 10) by concrete.
  assert (H3 : Forall is_ushort [6; 5; 4; 3]) by concrete.
  assert (H4 : (Z.to_nat 4 ≤ length [6; 5; 4; 3]%Z)%nat) by (simpl; lia).
  assert (H5 : 4 ≠ 0) by lia.
  assert (H6 : Forall (λ v, v <= 10) (numbers 4 [6; 5; 4; 3])) by concrete.
  repeat (split; [assumption |]).
  apply (free_bins_after_fill_bins 4 10 [6; 5; 4; 3] H1 H2 H3 H4 H5 H6).
Defined.

Lemma free_bins_after_oversize_last_witness :
  is_ushort 2 ∧ is_ushort 10 ∧ Forall is_ushort [3; 11] ∧
  (Z.to_nat 2 ≤ length [3; 11]%Z)%nat ∧ 2 ≠ 0 ∧
  [3; 11] !! (Z.to_nat 2 - 1)%nat = Some 11 ∧ 10 < 11 ∧
  free_bins (fill_bins 2 10 [3; 11] create_empty_bin_list).2 = None.
Proof.
  assert (H1 : is_ushort 2) by concrete.
  assert (H2 : is_ushort 10) by concrete.
  assert (H3 : Forall is_ushort [3; 11]) by concrete.
  assert (H4 : (Z.to_nat 2 ≤ length [3; 11]%Z)%nat) by (simpl; lia).
  assert (H5 : 2 ≠ 0) by lia.
  assert (H6 : [3; 11] !! (Z.to_nat 2 - 1)%nat = Some 11) by reflexivity.
  assert (H7 : 10 < 11) by lia.
  repeat (split; [assumption |]).
  apply (free_bins_after_oversize_last 2 10 [3; 11] 11
           H1 H2 H3 H4 H5 H6 H7).
Defined.

Lemma fill_bins_items_in_arrival_order_witness :
  is_ushort 4 ∧ is_ushort 10 ∧ Forall is_ushort [6; 5; 4; 3] ∧
  (Z.to_nat 4 ≤ length [6; 5; 4; 3]%Z)%nat ∧ (4 ≤ Z.to_nat 4)%nat ∧
  Forall (λ b, b_itens b `sublist_of` take 4 [6; 5; 4; 3])
    (l_itens (fill_bins_iter 4 10 4 [6; 5; 4; 3] create_empty_bin_list).2).
Proof.
  assert (H1 : is_ushort 4) by concrete.
  assert (H2 : is_ushort 10) by concrete.
  assert (H3 : Forall is_ushort [6; 5; 4; 3]) by concrete.
  assert (H4 : (Z.to_nat 4 ≤ length [6; 5; 4; 3]%Z)%nat) by (simpl; lia).
  assert (H5 : (4 ≤ Z.to_nat 4)%nat) by (simpl; lia).
  repeat (split; [assumption |]).
  apply (fill_bins_items_in_arrival_order 4 10 [6; 5; 4; 3] 4
           H1 H2 H3 H4 H5).
Defined.

Lemma fill_bins_append_only_witness :
  let b := {| b_itens := [6]; b_left := 4; b_count := 1 |} in
  is_ushort 4 ∧ is_ushort 10 ∧ Forall is_ushort [6; 5; 4; 3] ∧
  (Z.to_nat 4 ≤ length [6; 5; 4; 3]%Z)%nat ∧ (1 ≤ 4 ≤ Z.to_nat 4)%nat ∧
  l_itens (fill_bins_iter 4 10 1 [6; 5; 4; 3] create_empty_bin_list).2
    !! 0%nat = Some b ∧
  ∃ b',
    l_itens (fill_bins_iter 4 10 4 [6; 5; 4; 3] create_empty_bin_list).2
      !! 0%nat = Some b' ∧
    b_itens b `prefix_of` b_itens b'.
Proof.
  intros b.
  assert (H1 : is_ushort 4) by concrete.
  assert (H2 : is_ushort 10) by concrete.
  assert (H3 : Forall is_ushort [6; 5; 4; 3]) by concrete.
  assert (H4 : (Z.to_nat 4 ≤ length [6; 5; 4; 3]%Z)%nat) by (simpl; lia).
  assert (H5 : (1 ≤ 4 ≤ Z.to_nat 4)%nat) by (simpl; lia).
  assert (H6 : l_itens (fill_bins_iter 4 10 1 [6; 5; 4; 3]
                          create_empty_bin_list).2 !! 0%nat = Some b)
    by reflexivity.
  repeat (split; [assumption |]).
  apply (fill_bins_append_only 4 10 [6; 5; 4; 3] 1 4 0 b
           H1 H2 H3 H4 H5 H6).
Defined.

Lemma fill_bins_no_two_bins_mergeable_witness :
  let bi := {| b_itens := [6; 4]; b_left := 0; b_count := 2 |} in
  let bj := {| b_itens := [5; 3]; b_left := 2; b_count := 2 |} in
  let bins :=
    l_itens (fill_bins_iter 4 10 4 [6; 5; 4; 3] create_empty_bin_list).2 in
  is_ushort 4 ∧ is_ushort 10 ∧ Forall is_ushort [6; 5; 4; 3] ∧
  (Z.to_nat 4 ≤ length [6; 5; 4; 3]%Z)%nat ∧ (4 ≤ Z.to_nat 4)%nat ∧
  (0 < 1)%nat ∧ bins !! 0%nat = Some bi ∧ bins !! 1%nat = Some bj ∧
  b_itens bj ≠ [] ∧
  10 < sum (b_itens bi) + sum (b_itens bj).
Proof.
  intros bi bj bins.
  assert (H1 : is_ushort 4) by concrete.
  assert (H2 : is_ushort 10) by concrete.
  assert (H3 : Forall is_ushort [6; 5; 4; 3]) by concrete.
  assert (H4 : (Z.to_nat 4 ≤ length [6; 5; 4; 3]%Z)%nat) by (simpl; lia).
  assert (H5 : (4 ≤ Z.to_nat 4)%nat) by (simpl; lia).
  assert (H6 : (0 < 1)%nat) by lia.
  assert (H7 : bins !! 0%nat = Some bi) by reflexivity.
  assert (H8 : bins !! 1%nat = Some bj) by reflexivity.
  assert (H9 : b_itens bj ≠ []) by discriminate.
  repeat (split; [assumption |]).
  apply (proj2 (fill_bins_no_two_bins_mergeable 4 10 [6; 5; 4; 3] 4 0 1
                  bi bj H1 H2 H3 H4 H5 H6 H7 H8 H9)).
Defined.

Lemma fill_bins_number_of_bins_witness :
  is_ushort 4 ∧ is_ushort 10 ∧ Forall is_ushort [6; 5; 4; 3] ∧
  (Z.to_nat 4 ≤ length [6; 5; 4; 3]%Z)%nat ∧
  Forall (λ v, v <= 10) (numbers 4 [6; 5; 4; 3]) ∧
  let m :=
    length (l_itens (fill_bins 4 10 [6; 5; 4; 3] create_empty_bin_list).2) in
  sum (numbers 4 [6; 5; 4; 3]) <= Z.of_nat m * 10 ∧
  Z.of_nat (m / 2) * (10 + 1) <= sum (numbers 4 [6; 5; 4; 3]).
Proof.
  assert (H1 : is_ushort 4) by concrete.
  assert (H2 : is_ushort 10) by concrete.
  assert (H3 : Forall is_ushort [6; 5; 4; 3]) by concrete.
  assert (H4 : (Z.to_nat 4 ≤ length [6; 5; 4; 3]%Z)%nat) by (simpl; lia).
  assert (H5 : Forall (λ v, v <= 10) (numbers 4 [6; 5; 4; 3])) by concrete.
  repeat (split; [assumption |]).
  apply (fill_bins_number_of_bins 4 10 [6; 5; 4; 3] H1 H2 H3 H4 H5).
Defined.

Lemma print_numbers_report_witness :
  0 < 2 ∧ Forall is_ushort [40000; 40000] ∧
  print_numbers 2 [40000; 40000] = Some ([40000; 40000], 2, 7232).
Proof.
  assert (H1 : 0 < 2) by lia.
  assert (H2 : Forall is_ushort [40000; 40000]) by concrete.
  repeat (split; [assumption |]).
  apply (proj1 (print_numbers_report 2 [40000; 40000] H1 H2)).
Defined.

Lemma comparison_numbers_sign_witness :
  small 3 ∧ small 5 ∧ (0 < comparison_numbers 3 5 ↔ 3 < 5).
Proof.
  assert (H1 : small 3) by (unfold small; lia).
  assert (H2 : small 5) by (unfold small; lia).
  repeat (split; [assumption |]).
  apply (proj2 (proj2 (comparison_numbers_sign 3 5 H1 H2))).
Defined.

Lemma comparison_numbers_on_cells_witness :
  is_ushort 1 ∧ is_ushort 3 ∧ 0 <= 2 < 32768 ∧ 0 <= 4 < 32768 ∧
  (comparison_numbers (int_of_cells 1 2) (int_of_cells 3 4) <= 0
   ↔ 4 < 2 ∨ (4 = 2 ∧ 3 <= 1)).
Proof.
  assert (H1 : is_ushort 1) by concrete.
  assert (H2 : is_ushort 3) by concrete.
  assert (H3 : 0 <= 2 < 32768) by lia.
  assert (H4 : 0 <= 4 < 32768) by lia.
  repeat (split; [assumption |]).
  apply (comparison_numbers_on_cells 1 2 3 4 H1 H2 H3 H4).
Defined.

Lemma sort_numbers_array_permutes_cells_witness :
  Forall is_ushort [1; 2; 3; 4; 0; 0; 0; 0] ∧
  (2 * Z.to_nat 4 ≤ length [1; 2; 3; 4; 0; 0; 0; 0]%Z)%nat ∧
  sort_numbers_array 4 [1; 2; 3; 4; 0; 0; 0; 0]
  ≡ₚ [1; 2; 3; 4; 0; 0; 0; 0].
Proof.
  assert (H1 : Forall is_ushort [1; 2; 3; 4; 0; 0; 0; 0]) by concrete.
  assert (H2 : (2 * Z.to_nat 4 ≤ length [1; 2; 3; 4; 0; 0; 0; 0]%Z)%nat)
    by (simpl; lia).
  repeat (split; [assumption |]).
  apply (proj1 (sort_numbers_array_permutes_cells 4
                  [1; 2; 3; 4; 0; 0; 0; 0] H1 H2)).
Defined.

Lemma int_sort_numbers_array_descending_witness :
  Forall small [1; 2; 3; 4] ∧ length [1; 2; 3; 4] = Z.to_nat 4 ∧
  descending (IntVariant.sort_numbers_array 4 [1; 2; 3; 4]).
Proof.
  assert (H1 : Forall small [1; 2; 3; 4])
    by (repeat constructor; unfold small; lia).
  assert (H2 : length [1; 2; 3; 4] = Z.to_nat 4) by reflexivity.
  repeat (split; [assumption |]).
  apply (proj2 (int_sort_numbers_array_descending 4 [1; 2; 3; 4] H1 H2)).
Defined.

Lemma generate_random_number_in_range_witness :
  is_ushort 20 ∧ is_ushort 100 ∧ 20 <= 100 ∧ 0 <= 1073741824 <= RAND_MAX ∧
  generate_random_number RAND_MAX 20 100 = Some 100.
Proof.
  assert (H1 : is_ushort 20) by concrete.
  assert (H2 : is_ushort 100) by concrete.
  assert (H3 : 20 <= 100) by lia.
  assert (H4 : 0 <= 1073741824 <= RAND_MAX) by (unfold RAND_MAX; lia).
  repeat (split; [assumption |]).
  apply (proj2 (proj2
    (generate_random_number_in_range 1073741824 20 100 H1 H2 H3 H4))).
Defined.

Lemma create_numbers_array_in_range_witness :
  is_ushort 20 ∧ is_ushort 100 ∧ 20 <= 100 ∧
  Forall (λ r, 0 <= r <= RAND_MAX) [0; 1073741824; 2147483647] ∧
  (Z.to_nat 3 ≤ length [0; 1073741824; 2147483647]%Z)%nat ∧
  (Z.to_nat 3 ≤ length [0; 0; 0; 0; 0; 0]%Z)%nat ∧
  ∃ out,
    create_numbers_array 3 20 100 [0; 1073741824; 2147483647]
      [0; 0; 0; 0; 0; 0] = Some out ∧
    length out = length [0; 0; 0; 0; 0; 0] ∧
    Forall (λ x, 20 <= x <= 100) (numbers 3 out) ∧
    drop (Z.to_nat 3) out = drop (Z.to_nat 3) [0; 0; 0; 0; 0; 0].
Proof.
  assert (H1 : is_ushort 20) by concrete.
  assert (H2 : is_ushort 100) by concrete.
  assert (H3 : 20 <= 100) by lia.
  assert (H4 : Forall (λ r, 0 <= r <= RAND_MAX) [0; 1073741824; 2147483647])
    by (repeat constructor; unfold RAND_MAX; lia).
  assert (H5 : (Z.to_nat 3 ≤ length [0; 1073741824; 2147483647]%Z)%nat)
    by (simpl; lia).
  assert (H6 : (Z.to_nat 3 ≤ length [0; 0; 0; 0; 0; 0]%Z)%nat) by (simpl; lia).
  repeat (split; [assumption |]).
  apply (create_numbers_array_in_range 3 20 100
           [0; 1073741824; 2147483647] [0; 0; 0; 0; 0; 0]
           H1 H2 H3 H4 H5 H6).
Defined.

Lemma main_usage_witness :
  3 < 5 ∧ main 3 [4; 10] [] None true = Exited 1.
Proof.
  assert (H : 3 < 5) by lia.
  repeat (split; [assumption |]).
  apply (main_usage 3 [4; 10] [] None true H).
Defined.

Lemma main_values_allocation_failure_witness :
  5 <= 7 ∧ (Z.to_nat 7 - 1 ≤ length [2; 10; 1; 5; 6; 4]%Z)%nat ∧
  main 7 [2; 10; 1; 5; 6; 4] [] None true = Undefined.
Proof.
  assert (H1 : 5 <= 7) by lia.
  assert (H2 : (Z.to_nat 7 - 1 ≤ length [2; 10; 1; 5; 6; 4]%Z)%nat)
    by (simpl; lia).
  repeat (split; [assumption |]).
  apply (proj1 (main_values_allocation_failure 7 [2; 10; 1; 5; 6; 4] []
                  true H1 H2)). lia.
Defined.

